(** * Forecast dashboard (app.py): a shallow embedding and its properties

    The script is a Streamlit page: it loads a table (an upload or the bundled
    example), checks three required columns, fits one Prophet model per SKU,
    shows each forecast and offers all of them as one spreadsheet.  The page is
    re-executed top to bottom on every interaction, in a fresh namespace; one
    execution is modelled here as a computation that records the calls it makes
    to Streamlit, pandas and Prophet and ends by completing, by [st.stop()] or
    by an uncaught exception. *)

From Stdlib Require Import List String Ascii Bool Arith ZArith NArith QArith Lia FinFun.
Import ListNotations.
Open Scope string_scope.
Open Scope list_scope.
Open Scope nat_scope.

(** ** Cell values and series *)

(** A cell of a pandas table: text, an integer, a finite float (carried as the
    rational it denotes), a timestamp (nanoseconds since the epoch, as pandas
    stores them) or the missing value (NaN / None / NaT). *)
Inductive Scalar : Type :=
| SStr (s : string)
| SInt (z : Z)
| SFloat (q : Q)
| STime (t : Z)
| SNaN.

(** Elementwise [==] of pandas: numbers compare by value, the missing value
    equals nothing, not even itself. *)
Definition scalar_eq (a b : Scalar) : bool :=
  match a, b with
  | SStr x, SStr y => String.eqb x y
  | SInt x, SInt y => Z.eqb x y
  | SFloat x, SFloat y => Qeq_bool x y
  | SInt x, SFloat y => Qeq_bool (inject_Z x) y
  | SFloat x, SInt y => Qeq_bool x (inject_Z y)
  | STime x, STime y => Z.eqb x y
  | _, _ => false
  end.

(** Key equality of pandas' hash tables ([unique]): as [==], except that all
    missing values are one key. *)
Definition same_key (a b : Scalar) : bool :=
  match a, b with
  | SNaN, SNaN => true
  | _, _ => scalar_eq a b
  end.

Definition Series := list Scalar.

(** [Series.unique()]: the distinct values in order of first appearance. *)
Fixpoint unique_from (seen : list Scalar) (s : Series) : list Scalar :=
  match s with
  | [] => []
  | v :: rest =>
      if existsb (same_key v) seen then unique_from seen rest
      else v :: unique_from (v :: seen) rest
  end.

Definition unique (s : Series) : list Scalar := unique_from [] s.

(** Boolean indexing [s[mask]]: the entries whose mask bit is set. *)
Fixpoint select_mask {A : Type} (mask : list bool) (l : list A) : list A :=
  match mask, l with
  | b :: mask', x :: l' =>
      if b then x :: select_mask mask' l' else select_mask mask' l'
  | _, _ => []
  end.

(** The last [n] entries ([iloc[-n:]], and nothing for [n = 0]). *)
Definition lastn {A : Type} (n : nat) (l : list A) : list A :=
  skipn (List.length l - n) l.

(** ** Data frames *)

(** A frame is its index length and its named columns, in order. *)
Record DataFrame : Type := mkDF {
  nrows : nat;
  cols : list (string * Series)
}.

Definition columns (d : DataFrame) : list string := map fst (cols d).

Fixpoint lookup_col (c : string) (l : list (string * Series)) : option Series :=
  match l with
  | [] => None
  | (k, s) :: rest => if String.eqb c k then Some s else lookup_col c rest
  end.

(** [df[c]]: [None] stands for the [KeyError] of a missing column. *)
Definition getitem (c : string) (d : DataFrame) : option Series :=
  lookup_col c (cols d).

(** [c in df.columns]. *)
Definition in_columns (c : string) (d : DataFrame) : bool :=
  existsb (String.eqb c) (columns d).

(** Every column is as long as the index. *)
Definition wf_frame (d : DataFrame) : Prop :=
  Forall (fun cs => List.length (snd cs) = nrows d) (cols d).

(** [df[mask]]: the index and every column are filtered by the mask. *)
Definition filter_rows (mask : list bool) (d : DataFrame) : DataFrame :=
  {| nrows := List.length (select_mask mask (seq 0 (nrows d)));
     cols := map (fun cs => (fst cs, select_mask mask (snd cs))) (cols d) |}.

Fixpoint replace_col (c : string) (s : Series) (l : list (string * Series))
  : list (string * Series) :=
  match l with
  | [] => [(c, s)]
  | (k, s0) :: rest =>
      if String.eqb c k then (k, s) :: rest else (k, s0) :: replace_col c s rest
  end.

(** [df[c] = s]: an existing column is replaced in place, a new one is added
    last. *)
Definition setitem (c : string) (s : Series) (d : DataFrame) : DataFrame :=
  {| nrows := nrows d; cols := replace_col c s (cols d) |}.

(** [df[c] = v] with a scalar: the value is broadcast over the index. *)
Definition setitem_scalar (c : string) (v : Scalar) (d : DataFrame) : DataFrame :=
  setitem c (repeat v (nrows d)) d.

(** [df[[c1, ..., cn]]]: the named columns, or the [KeyError] of the first
    missing one. *)
Fixpoint getitems (names : list string) (d : DataFrame)
  : option (list (string * Series)) :=
  match names with
  | [] => Some []
  | c :: rest =>
      match getitem c d, getitems rest d with
      | Some s, Some l => Some ((c, s) :: l)
      | _, _ => None
      end
  end.

Definition select_columns (names : list string) (d : DataFrame) : option DataFrame :=
  match getitems names d with
  | Some l => Some {| nrows := nrows d; cols := l |}
  | None => None
  end.

(** [df.tail(n)]. *)
Definition tail (n : nat) (d : DataFrame) : DataFrame :=
  {| nrows := Nat.min n (nrows d);
     cols := map (fun cs => (fst cs, lastn n (snd cs))) (cols d) |}.

(** The column [c] of [d] as [pd.concat] sees it: missing columns are filled
    with the missing value. *)
Definition col_or_nan (c : string) (d : DataFrame) : Series :=
  match getitem c d with
  | Some s => s
  | None => repeat SNaN (nrows d)
  end.

Fixpoint union_names (seen : list string) (l : list string) : list string :=
  match l with
  | [] => []
  | c :: rest =>
      if existsb (String.eqb c) seen then union_names seen rest
      else c :: union_names (c :: seen) rest
  end.

(** [pd.concat(frames)] (outer join on the columns, rows stacked in order):
    [None] stands for the [ValueError] raised on an empty list. *)
Definition pd_concat (frames : list DataFrame) : option DataFrame :=
  match frames with
  | [] => None
  | _ =>
      Some {| nrows := list_sum (map nrows frames);
              cols := map (fun c => (c, flat_map (col_or_nan c) frames))
                          (union_names [] (flat_map columns frames)) |}
  end.

(** The rows of a frame, top to bottom: each row holds one cell per column. *)
Fixpoint rows_from (n : nat) (cs : list Series) : list (list Scalar) :=
  match n with
  | O => []
  | S k => map (hd SNaN) cs :: rows_from k (map (@tl Scalar) cs)
  end.

Definition observations (d : DataFrame) : list (list Scalar) :=
  rows_from (nrows d) (map snd (cols d)).

(** The position of the first column named [c] (the number of columns when
    there is none), and the cell of a row in that column. *)
Fixpoint index_of (c : string) (names : list string) : nat :=
  match names with
  | [] => 0
  | k :: rest => if String.eqb c k then 0 else S (index_of c rest)
  end.

Definition value_at (c : string) (d : DataFrame) (row : list Scalar) : Scalar :=
  nth (index_of c (columns d)) row SNaN.

(** The rows of [d] whose cell in the column sku is [==] to [sku]: the
    observations of that entity. *)
Definition observations_of (d : DataFrame) (sku : Scalar) : list (list Scalar) :=
  filter (fun row => scalar_eq (value_at "sku" d row) sku) (observations d).

(** A frame laid out on the columns [names], as [pd.concat] lays out each of
    its arguments on the union of their columns. *)
Definition reindex (names : list string) (d : DataFrame) : DataFrame :=
  {| nrows := nrows d; cols := map (fun c => (c, col_or_nan c d)) names |}.

(** The cells [to_excel(index=False)] writes: the header row, then one row per
    index entry. *)
Definition Sheet := list (list Scalar).

Definition sheet_cells (d : DataFrame) : Sheet :=
  map SStr (columns d) :: observations d.

(** No value of the list is the key of an earlier one. *)
Fixpoint keys_distinct (l : list Scalar) : Prop :=
  match l with
  | [] => True
  | v :: rest => Forall (fun u => same_key u v = false) rest /\ keys_distinct rest
  end.

(** ** What one execution of the page does *)

(** The object [st.file_uploader] returns for an upload. *)
Record UploadedFile : Type := mkUpload {
  name : string;
  size : N;
  content : list Byte.byte
}.

(** The two entries of the seasonality select box. *)
Inductive Mode : Type := additive | multiplicative.

(** The values of the two sidebar widgets: the horizon (a number input from 7
    to 365, 30 by default) and the seasonality mode. *)
Record Config : Type := mkConfig {
  periods : nat;
  seasonality_mode : Mode
}.

Definition valid_periods (p : nat) : Prop := 7 <= p <= 365.

Inductive Exn : Type :=
| NameError (var : string)
| KeyError (keys : list string)
| ValueError (msg : string)
| StreamlitAPIException (msg : string)
| LibraryError (call : string).

(** The two error messages of the page.  [ErrTooLarge fs lim] is
    "El archivo es demasiado grande ({fs:.2f} MB). El límite es {lim} MB." and
    [ErrMissingColumn col] is "El dataset debe contener la columna '{col}'". *)
Inductive ErrorMsg : Type :=
| ErrTooLarge (file_size : Q) (limit : Z)
| ErrMissingColumn (col : string).

(** The calls an execution makes, in order.  The static text of the page (page
    configuration, title, instructions) and the declarations of the widgets
    are the same in every execution and are left out. *)
Inductive Event : Type :=
| StError (msg : ErrorMsg)
| StSuccess (msg : string)
| StInfo (msg : string)
| ReadCsvUpload (f : UploadedFile)
| ReadExcelUpload (f : UploadedFile)
| ReadCsvPath (path : string)
| StSubheader (text : string)
| StTabs (labels : list Scalar)
| StMarkdown (sku : Scalar)
| ProphetFit (mode : Mode) (train : DataFrame)
| ProphetPredict (future : DataFrame)
| StPlotlyChart (forecast : DataFrame)
| StPyplot (forecast : DataFrame)
| StDataframe (shown : DataFrame)
| ToExcel (d : DataFrame)
| StDownloadButton (label : string) (data : list Byte.byte)
                   (file_name : string) (mime : string).

(** How an execution ends: it runs to the last line, [st.stop()] ends it, or an
    exception nobody catches ends it. *)
Inductive Outcome (A : Type) : Type :=
| Done (a : A)
| Stopped
| Raised (e : Exn).
Arguments Done {A} a.
Arguments Stopped {A}.
Arguments Raised {A} e.

(** ** The libraries the page calls *)

(** pandas' readers, Prophet and the spreadsheet writer are not part of the
    repository: they are parameters.  A result [None] stands for whatever the
    call raises.  [World] is the state outside the script that a call may read
    and change (the random generator Prophet draws its intervals from);
    [predict] first checks its frame, and may raise, and only then samples.
    [pd_read_csv_path] is [pd.read_csv] on a path of the file system: the
    table of the file, when it is there and can be parsed. *)
Class Libs : Type := mkLibs {
  World : Type;
  pd_read_csv : UploadedFile -> option DataFrame;
  pd_read_excel : UploadedFile -> option DataFrame;
  pd_read_csv_path : string -> option DataFrame;
  pd_to_datetime : Series -> option Series;
  Model : Type;
  prophet_fit : Mode -> DataFrame -> option Model;
  history_dates : Model -> list Z;
  prophet_predict : Model -> DataFrame -> option (World -> DataFrame * World);
  xlsx_write : Sheet -> option (list Byte.byte)
}.

(** One day, in nanoseconds. *)
Definition DAY : Z := 86400000000000.

Definition max_date (l : list Z) : option Z :=
  match l with
  | [] => None
  | t :: rest => Some (fold_left Z.max rest t)
  end.

(** The [periods] days after [last] ([pd.date_range] with [freq='D'], the
    start excluded). *)
Definition next_days (last : Z) (periods : nat) : list Z :=
  map (fun k => (last + Z.of_nat k * DAY)%Z) (seq 1 periods).

(** The dates [Prophet.make_future_dataframe(periods)] returns: the dates of
    the history, then [periods] further days after the latest of them. *)
Definition future_dates (history : list Z) (periods : nat) : option (list Z) :=
  match max_date history with
  | None => None
  | Some last => Some (history ++ next_days last periods)
  end.

Definition frame_of_dates (l : list Z) : DataFrame :=
  {| nrows := List.length l; cols := [("ds", map STime l)] |}.

(** Sorting without repetition, as Prophet stores the dates of the history. *)
Fixpoint insert_sorted (x : Z) (l : list Z) : list Z :=
  match l with
  | [] => [x]
  | y :: rest =>
      if (x <? y)%Z then x :: l
      else if (x =? y)%Z then l
      else y :: insert_sorted x rest
  end.

Definition sort_unique (l : list Z) : list Z := fold_right insert_sorted [] l.

Section App.

Context {L : Libs}.

(** *** The execution monad: a log of calls, the outside state, an outcome *)

Definition M (A : Type) : Type := World -> Outcome A * list Event * World.

Definition ret {A : Type} (a : A) : M A := fun w => (Done a, [], w).

(** The calls [l] made before those of [r]. *)
Definition after_events {A : Type} (l : list Event)
    (r : Outcome A * list Event * World) : Outcome A * list Event * World :=
  match r with
  | (o, l2, w2) => (o, l ++ l2, w2)
  end.

Definition bind {A B : Type} (m : M A) (k : A -> M B) : M B :=
  fun w =>
    match m w with
    | (Done a, l1, w1) => after_events l1 (k a w1)
    | (Stopped, l1, w1) => (Stopped, l1, w1)
    | (Raised e, l1, w1) => (Raised e, l1, w1)
    end.

Definition emit (e : Event) : M unit := fun w => (Done tt, [e], w).

Definition raise {A : Type} (e : Exn) : M A := fun w => (Raised e, [], w).

(** [st.stop()]. *)
Definition st_stop {A : Type} : M A := fun w => (Stopped, [], w).

(** The result of a library call, or the exception it raised. *)
Definition external {A : Type} (call : string) (r : option A) : M A :=
  match r with
  | Some a => ret a
  | None => raise (LibraryError call)
  end.

Definition outcome {A : Type} (r : Outcome A * list Event * World) : Outcome A :=
  fst (fst r).

Definition events {A : Type} (r : Outcome A * list Event * World) : list Event :=
  snd (fst r).

End App.

Notation "x <- m ;; k" := (bind m (fun x => k))
  (at level 61, m at next level, right associativity).
Notation "m ;;; k" := (bind m (fun _ => k))
  (at level 61, right associativity).

(** ** The script *)

Section Script.

Context {L : Libs}.

Definition MAX_SIZE_MB : Z := 5.

(** [uploaded_file.size / (1024 * 1024)].  Python divides the two integers
    exactly and rounds once; a quotient by a power of two that is above 5 stays
    above 5, so the test against [MAX_SIZE_MB] is the one on the exact
    quotient. *)
Definition file_size (f : UploadedFile) : Q :=
  inject_Z (Z.of_N (size f)) / inject_Z (1024 * 1024).

(** [file_size > MAX_SIZE_MB]. *)
Definition too_large (f : UploadedFile) : bool :=
  negb (Qle_bool (file_size f) (inject_Z MAX_SIZE_MB)).

(** [s.endswith(suffix)]. *)
Definition endswith (s suffix : string) : bool :=
  let n := String.length s in
  let k := String.length suffix in
  (k <=? n) && String.eqb (substring (n - k) k s) suffix.

(** Lines 41-57.  The result is the binding of the variable [df] afterwards:
    [None] when no line assigned it.  (The assignment [uploaded_file = None]
    of the oversize branch is read by no later line.) *)
Definition load (uploaded_file : option UploadedFile) : M (option DataFrame) :=
  match uploaded_file with
  | Some f =>
      if too_large f then
        emit (StError (ErrTooLarge (file_size f) MAX_SIZE_MB)) ;;;
        ret None
      else
        df <- (if endswith (name f) ".csv"
               then emit (ReadCsvUpload f) ;;;
                    external "pd.read_csv" (pd_read_csv f)
               else emit (ReadExcelUpload f) ;;;
                    external "pd.read_excel" (pd_read_excel f)) ;;
        emit (StSuccess "Archivo cargado correctamente!") ;;;
        ret (Some df)
  | None =>
      emit (ReadCsvPath "data/datos_grupasa.csv") ;;;
      df <- external "pd.read_csv" (pd_read_csv_path "data/datos_grupasa.csv") ;;
      emit (StInfo "Usando dataset sintético de ejemplo.") ;;;
      ret (Some df)
  end.

(** Reading the variable [df]: a [NameError] when it is not bound. *)
Definition read_df (df : option DataFrame) : M DataFrame :=
  match df with
  | Some d => ret d
  | None => raise (NameError "df")
  end.

(** [d[c]], with its [KeyError]. *)
Definition item (c : string) (d : DataFrame) : M Series :=
  match getitem c d with
  | Some s => ret s
  | None => raise (KeyError [c])
  end.

(** [d[[c1, ..., cn]]], with its [KeyError]. *)
Definition items (names : list string) (d : DataFrame) : M DataFrame :=
  match select_columns names d with
  | Some r => ret r
  | None => raise (KeyError names)
  end.

Definition required_cols : list string := ["sku"; "fecha"; "demanda_real"].

(** Lines 63-66: the loop over the required columns. *)
Fixpoint validate (required : list string) (df : option DataFrame) : M unit :=
  match required with
  | [] => ret tt
  | col :: rest =>
      d <- read_df df ;;
      if negb (in_columns col d) then
        emit (StError (ErrMissingColumn col)) ;;;
        st_stop
      else validate rest df
  end.

(** [st.tabs(labels)]: Streamlit refuses an empty list of labels.  The labels
    are [str(sku)] of the values recorded here. *)
Definition st_tabs (skus : list Scalar) : M unit :=
  match skus with
  | [] => raise (StreamlitAPIException
                   "The input argument to st.tabs must contain at least one tab label.")
  | _ => emit (StTabs skus)
  end.

(** [m.make_future_dataframe(periods=periods)]. *)
Definition make_future_dataframe (m : Model) (periods : nat) : option DataFrame :=
  option_map frame_of_dates (future_dates (history_dates m) periods).

(** [m.predict(future)]: the frame is checked, then the forecast is computed
    with intervals drawn from the outside state. *)
Definition predict (m : Model) (future : DataFrame) : M DataFrame :=
  emit (ProphetPredict future) ;;;
  match prophet_predict m future with
  | Some sample => fun w => (Done (fst (sample w)), [], snd (sample w))
  | None => raise (LibraryError "Prophet.predict")
  end.

Definition display_cols : list string := ["ds"; "yhat"; "yhat_lower"; "yhat_upper"].

(** Lines 89-90 and the selection of line 97: the columns ds and y are added
    to the rows of one SKU, and the two are what the model is fitted on. *)
Definition prepare (df_sku : DataFrame) : M DataFrame :=
  fecha <- item "fecha" df_sku ;;
  ds <- external "pd.to_datetime" (pd_to_datetime fecha) ;;
  let df_sku := setitem "ds" ds df_sku in
  y <- item "demanda_real" df_sku ;;
  let df_sku := setitem "y" y df_sku in
  items ["ds"; "y"] df_sku.

(** Lines 88-90 and 97: the frame the model of [sku] is fitted on. *)
Definition training_frame (d : DataFrame) (sku : Scalar) : M DataFrame :=
  sku_col <- item "sku" d ;;
  prepare (filter_rows (map (fun v => scalar_eq v sku) sku_col) d).

(** Lines 86-113: the body of the loop over the SKUs.  It returns the forecast
    that line 103 appends to [all_forecasts]. *)
Definition forecast_sku (df : option DataFrame) (cfg : Config) (sku : Scalar)
  : M DataFrame :=
  emit (StMarkdown sku) ;;;
  d <- read_df df ;;
  train <- training_frame d sku ;;
  emit (ProphetFit (seasonality_mode cfg) train) ;;;
  m <- external "Prophet.fit" (prophet_fit (seasonality_mode cfg) train) ;;
  future <- external "Prophet.make_future_dataframe"
                     (make_future_dataframe m (periods cfg)) ;;
  forecast <- predict m future ;;
  let forecast := setitem_scalar "sku" sku forecast in
  emit (StPlotlyChart forecast) ;;;
  emit (StPyplot forecast) ;;;
  shown <- items display_cols forecast ;;
  emit (StDataframe (tail (periods cfg) shown)) ;;;
  ret forecast.

(** Lines 84-113: the loop, with [all_forecasts] as it stands. *)
Fixpoint forecast_loop (df : option DataFrame) (cfg : Config)
    (skus : list Scalar) (all_forecasts : list DataFrame) : M (list DataFrame) :=
  match skus with
  | [] => ret all_forecasts
  | sku :: rest =>
      forecast <- forecast_sku df cfg sku ;;
      forecast_loop df cfg rest (all_forecasts ++ [forecast])
  end.

Definition XLSX_NAME : string := "forecast_all_skus.xlsx".

Definition XLSX_MIME : string :=
  "application/vnd.openxmlformats-officedocument.spreadsheetml.sheet".

(** What is left of the script's variables when it reaches its last line. *)
Record Page : Type := mkPage {
  skus_of : list Scalar;
  all_forecasts_of : list DataFrame;
  df_all_forecast_of : DataFrame;
  excel_buffer_of : list Byte.byte
}.

(** Lines 118-129. *)
Definition export (skus : list Scalar) (all_forecasts : list DataFrame) : M Page :=
  emit (StSubheader "📥 Descargar pronósticos de todos los SKUs") ;;;
  df_all_forecast <-
    match pd_concat all_forecasts with
    | Some d => ret d
    | None => raise (ValueError "No objects to concatenate")
    end ;;
  emit (ToExcel df_all_forecast) ;;;
  excel_buffer <- external "DataFrame.to_excel"
                           (xlsx_write (sheet_cells df_all_forecast)) ;;
  emit (StDownloadButton "Descargar pronósticos (Excel)" excel_buffer
                         XLSX_NAME XLSX_MIME) ;;;
  emit (StSuccess "✅ Forecast generado para todos los SKUs.") ;;;
  ret (mkPage skus all_forecasts df_all_forecast excel_buffer).

(** Lines 62-113: the validation and the forecasts, for a binding of [df].
    The result is [skus] and [all_forecasts] as the loop leaves them. *)
Definition forecast_all (df : option DataFrame) (cfg : Config)
  : M (list Scalar * list DataFrame) :=
  validate required_cols df ;;;
  d <- read_df df ;;
  sku_col <- item "sku" d ;;
  let skus := unique sku_col in
  emit (StSubheader "📊 Pronósticos por SKU") ;;;
  st_tabs skus ;;;
  all_forecasts <- forecast_loop df cfg skus [] ;;
  ret (skus, all_forecasts).

(** Lines 62-129: the script from the validation on. *)
Definition after_load (df : option DataFrame) (cfg : Config) : M Page :=
  r <- forecast_all df cfg ;;
  export (fst r) (snd r).

(** One execution of the page, for the upload and the sidebar values. *)
Definition app (uploaded_file : option UploadedFile) (cfg : Config) : M Page :=
  df <- load uploaded_file ;;
  after_load df cfg.

End Script.

(** ** A small instance of the libraries, to run the script on *)

Module Demo.

(** The timestamps of a series that holds nothing else. *)
Fixpoint all_times (s : Series) : option (list Z) :=
  match s with
  | [] => Some []
  | STime t :: rest => option_map (cons t) (all_times rest)
  | _ :: _ => None
  end.

(** Tables whose dates are timestamps already are converted to themselves. *)
Definition to_datetime (s : Series) : option Series :=
  option_map (map STime) (all_times s).

(** A model is the sorted dates of its history; two observations are needed. *)
Definition fit (mode : Mode) (train : DataFrame) : option (list Z) :=
  match getitem "ds" train with
  | Some ds =>
      match all_times ds with
      | Some ts => if 2 <=? List.length ts then Some (sort_unique ts) else None
      | None => None
      end
  | None => None
  end.

(** The forecast is flat at 0; the width of its interval is the state of the
    generator, which every call advances. *)
Definition predict_frame (m : list Z) (future : DataFrame)
  : option (nat -> DataFrame * nat) :=
  match getitem "ds" future with
  | Some ds =>
      Some (fun w =>
              ({| nrows := nrows future;
                  cols := [("ds", ds);
                           ("yhat_lower", repeat (SInt (- Z.of_nat w)) (nrows future));
                           ("yhat_upper", repeat (SInt (Z.of_nat w)) (nrows future));
                           ("yhat", repeat (SInt 0) (nrows future))] |},
               S w))
  | None => None
  end.

(** [n] consecutive days from [t0]. *)
Definition daily (t0 : Z) (n : nat) : list Z :=
  map (fun k => (t0 + Z.of_nat k * DAY)%Z) (seq 0 n).

(** A table of the three required columns: for each SKU of [skus], [n] daily
    observations from [t0], each of demand 10. *)
Definition sales (skus : list string) (t0 : Z) (n : nat) : DataFrame :=
  {| nrows := List.length skus * n;
     cols := [("sku", flat_map (fun s => repeat (SStr s) n) skus);
              ("fecha", flat_map (fun _ => map STime (daily t0 n)) skus);
              ("demanda_real", flat_map (fun _ => repeat (SInt 10) n) skus)] |}.

(** An upload that starts with the letter a is read as the table
    [sales ["A"; "B"] 0 3], one that starts with b as [sales ["A"; "B"] 0 400],
    one that starts with e as the table of the three columns and no row, any
    other as a table without the column fecha; an empty one cannot be read. *)
Definition read (f : UploadedFile) : option DataFrame :=
  match content f with
  | [] => None
  | Byte.x61 :: _ => Some (sales ["A"; "B"] 0 3)
  | Byte.x62 :: _ => Some (sales ["A"; "B"] 0 400)
  | Byte.x65 :: _ => Some (sales [] 0 0)
  | _ => Some {| nrows := 2;
                 cols := [("sku", [SStr "A"; SStr "A"]);
                          ("demanda_real", [SInt 10; SInt 12])] |}
  end.

Definition write (s : Sheet) : option (list Byte.byte) :=
  Some (repeat Byte.x78 (List.length s)).

(** The bundled file holds [sales ["P1"; "P2"; "P3"] 0 5]; no other path can
    be read. *)
Definition read_path (path : string) : option DataFrame :=
  if String.eqb path "data/datos_grupasa.csv"
  then Some (sales ["P1"; "P2"; "P3"] 0 5)
  else None.

Definition libs : Libs :=
  {| World := nat;
     pd_read_csv := read;
     pd_read_excel := read;
     pd_read_csv_path := read_path;
     pd_to_datetime := to_datetime;
     Model := list Z;
     prophet_fit := fit;
     history_dates := fun m => m;
     prophet_predict := predict_frame;
     xlsx_write := write |}.

(** The same libraries where the bundled file is not there. *)
Definition libs_without_example : Libs :=
  {| World := nat;
     pd_read_csv := read;
     pd_read_excel := read;
     pd_read_csv_path := fun _ => None;
     pd_to_datetime := to_datetime;
     Model := list Z;
     prophet_fit := fit;
     history_dates := fun m => m;
     prophet_predict := predict_frame;
     xlsx_write := write |}.

Definition upload (nm : string) (sz : N) : UploadedFile :=
  mkUpload nm sz [Byte.x61].

Definition upload_400 : UploadedFile := mkUpload "ventas.csv" 20000 [Byte.x62].

Definition upload_empty : UploadedFile := mkUpload "vacio.csv" 24 [Byte.x65].

Definition upload_no_fecha : UploadedFile := mkUpload "ventas.csv" 60 [Byte.x7a].

Definition cfg30 : Config := mkConfig 30 additive.

End Demo.

(** ** Reading a log *)

(** The calls that read the contents of an upload. *)
Definition reads_upload (e : Event) : bool :=
  match e with
  | ReadCsvUpload _ | ReadExcelUpload _ => true
  | _ => false
  end.

(** The calls of the forecasting and of the export: tabs, fits, predictions,
    charts, tables, the spreadsheet and its download button. *)
Definition forecasts_or_exports (e : Event) : bool :=
  match e with
  | StTabs _ | StMarkdown _ | ProphetFit _ _ | ProphetPredict _
  | StPlotlyChart _ | StPyplot _ | StDataframe _ | ToExcel _
  | StDownloadButton _ _ _ _ => true
  | _ => false
  end.

(** The first required column, in the order of [required_cols], that the table
    lacks. *)
Definition first_missing (d : DataFrame) : option string :=
  find (fun c => negb (in_columns c d)) required_cols.

(** The download buttons of a log. *)
Definition is_download (e : Event) : bool :=
  match e with
  | StDownloadButton _ _ _ _ => true
  | _ => false
  end.

(** Two forecasts with the same dates and the same point estimates. *)
Definition same_point_forecast (a b : DataFrame) : Prop :=
  getitem "ds" a = getitem "ds" b /\ getitem "yhat" a = getitem "yhat" b.

(** Two executions that end the same way: both complete, with results related
    by [R], or both stop, or both raise the same exception. *)
Definition same_end {A : Type} (R : A -> A -> Prop) (o1 o2 : Outcome A) : Prop :=
  match o1, o2 with
  | Done a, Done b => R a b
  | Stopped, Stopped => True
  | Raised e1, Raised e2 => e1 = e2
  | _, _ => False
  end.

(** The SKUs and forecasts of two executions: the same SKUs and, SKU by SKU,
    the same dates and point estimates. *)
Definition same_forecasts (r1 r2 : list Scalar * list DataFrame) : Prop :=
  fst r1 = fst r2 /\ Forall2 same_point_forecast (snd r1) (snd r2).

(** The column fecha of the observations of [sku]. *)
Definition fechas (d : DataFrame) (sku : Scalar) : option Series :=
  match getitem "sku" d with
  | Some col => getitem "fecha" (filter_rows (map (fun v => scalar_eq v sku) col) d)
  | None => None
  end.

Section Runs.

Context {L : Libs}.

(** The loop of lines 84-113 running to its end: from the state [w], pass after
    pass, it yields the forecasts [fcs], makes the calls [l] and leaves the
    state [w']. *)
Inductive loop_run (df : option DataFrame) (cfg : Config)
  : list Scalar -> World -> list DataFrame -> list Event -> World -> Prop :=
| loop_end w : loop_run df cfg [] w [] [] w
| loop_pass sku rest w fc l1 w1 fcs l2 w2 :
    forecast_sku df cfg sku w = (Done fc, l1, w1) ->
    loop_run df cfg rest w1 fcs l2 w2 ->
    loop_run df cfg (sku :: rest) w (fc :: fcs) (l1 ++ l2) w2.

End Runs.

(** ** What is assumed of Prophet *)

(** The part of Prophet's documented behaviour the properties below rest on.
    [fit] keeps the distinct dates of its training frame, sorted.  [predict]
    returns one row per row of the frame it is given, with the same dates and
    with the columns yhat, yhat_lower and yhat_upper; its point estimate yhat
    does not depend on the state outside (the intervals, which are sampled,
    may). *)
Class ProphetContract (L : Libs) : Prop := mkContract {
  fit_history : forall mode train m ts,
    prophet_fit mode train = Some m ->
    getitem "ds" train = Some (map STime ts) ->
    history_dates m = sort_unique ts;
  predict_shape : forall m future sample w,
    prophet_predict m future = Some sample ->
    wf_frame future ->
    wf_frame (fst (sample w)) /\ nrows (fst (sample w)) = nrows future;
  predict_dates : forall m future sample w,
    prophet_predict m future = Some sample ->
    getitem "ds" (fst (sample w)) = getitem "ds" future;
  predict_columns : forall m future sample w c,
    prophet_predict m future = Some sample ->
    In c ["yhat"; "yhat_lower"; "yhat_upper"] ->
    in_columns c (fst (sample w)) = true;
  predict_point : forall m future sample w w',
    prophet_predict m future = Some sample ->
    getitem "yhat" (fst (sample w)) = getitem "yhat" (fst (sample w'))
}.

(** ** More ways to read a log *)

(** The SKUs of the headers "### SKU: {sku}" of a log, in order. *)
Definition headers_of (l : list Event) : list Scalar :=
  flat_map (fun e => match e with StMarkdown sku => [sku] | _ => [] end) l.

(** The calls of [Prophet.fit]. *)
Definition is_fit (e : Event) : bool :=
  match e with
  | ProphetFit _ _ => true
  | _ => false
  end.


(** The closing notification of line 129. *)
Definition is_final_success (e : Event) : bool :=
  match e with
  | StSuccess msg => String.eqb msg "✅ Forecast generado para todos los SKUs."
  | _ => false
  end.

(** A table where B has a single observation: A and C have three days each. *)
Definition uneven_sales : DataFrame :=
  {| nrows := 7;
     cols := [("sku", [SStr "A"; SStr "A"; SStr "A"; SStr "B";
                       SStr "C"; SStr "C"; SStr "C"]);
              ("fecha", map STime (Demo.daily 0 3 ++ Demo.daily 0 1 ++ Demo.daily 0 3));
              ("demanda_real", repeat (SInt 10) 7)] |}.


(** The table [Demo.sales ["A"; "B"] 0 3] with a price column in front and the
    required columns in another order. *)
Definition sales_with_price : DataFrame :=
  {| nrows := 6;
     cols := [("precio_unitario", repeat (SFloat (5 # 2)) 6);
              ("demanda_real", repeat (SInt 10) 6);
              ("fecha", map STime (Demo.daily 0 3 ++ Demo.daily 0 3));
              ("sku", repeat (SStr "A") 3 ++ repeat (SStr "B") 3)] |}.

(** A table whose third row has no SKU. *)
Definition sales_with_gap : DataFrame :=
  {| nrows := 5;
     cols := [("sku", [SStr "A"; SStr "A"; SNaN; SStr "B"; SStr "B"]);
              ("fecha", map STime (Demo.daily 0 2 ++ Demo.daily 0 1 ++ Demo.daily 0 2));
              ("demanda_real", repeat (SInt 10) 5)] |}.

(** * Properties *)

Section Loading.

Context {L : Libs}.

Lemma bind_done {A B : Type} (m : M A) (k : A -> M B) w a l w1 :
  m w = (Done a, l, w1) -> bind m k w = after_events l (k a w1).
Proof. intros H. unfold bind. now rewrite H. Qed.

Lemma bind_stopped {A B : Type} (m : M A) (k : A -> M B) w l w1 :
  m w = (Stopped, l, w1) -> bind m k w = (Stopped, l, w1).
Proof. intros H. unfold bind. now rewrite H. Qed.

Lemma bind_raised {A B : Type} (m : M A) (k : A -> M B) w e l w1 :
  m w = (Raised e, l, w1) -> bind m k w = (Raised e, l, w1).
Proof. intros H. unfold bind. now rewrite H. Qed.

Lemma bind_emit {B : Type} (e : Event) (k : unit -> M B) w :
  bind (emit e) k w = after_events [e] (k tt w).
Proof. reflexivity. Qed.

Lemma bind_ret {A B : Type} (a : A) (k : A -> M B) w :
  bind (ret a) k w = k a w.
Proof. unfold bind, ret. destruct (k a w) as [[o l] w']. reflexivity. Qed.

Lemma after_events_nil {A : Type} (r : Outcome A * list Event * World) :
  after_events [] r = r.
Proof. now destruct r as [[o l] w]. Qed.

Lemma after_events_app {A : Type} l1 l2 (r : Outcome A * list Event * World) :
  after_events l1 (after_events l2 r) = after_events (l1 ++ l2) r.
Proof. destruct r as [[o l] w]. simpl. now rewrite app_assoc. Qed.

Lemma outcome_after_events {A : Type} l (r : Outcome A * list Event * World) :
  outcome (after_events l r) = outcome r.
Proof. now destruct r as [[o l'] w]. Qed.

Lemma events_after_events {A : Type} l (r : Outcome A * list Event * World) :
  events (after_events l r) = l ++ events r.
Proof. now destruct r as [[o l'] w]. Qed.

(** The test of line 44 in bytes. *)
Lemma too_large_bytes (f : UploadedFile) :
  too_large f = true <-> (5 * 1024 * 1024 < size f)%N.
Proof.
  unfold too_large, file_size, MAX_SIZE_MB.
  rewrite negb_true_iff, <- not_true_iff_false, Qle_bool_iff.
  unfold Qle, Qdiv, Qmult, Qinv, inject_Z. simpl.
  split; intros H; lia.
Qed.

Lemma too_large_megabytes (f : UploadedFile) :
  too_large f = true <-> (inject_Z MAX_SIZE_MB < file_size f)%Q.
Proof.
  unfold too_large. rewrite negb_true_iff, <- not_true_iff_false, Qle_bool_iff.
  split; [apply Qnot_le_lt | apply Qlt_not_le].
Qed.

End Loading.

Section LoaderAndValidator.

Context {L : Libs}.

(** What [load] does with an upload that passes the size test. *)
Lemma load_accepted (f : UploadedFile) w :
  too_large f = false ->
  load (Some f) w =
    if endswith (name f) ".csv" then
      match pd_read_csv f with
      | Some d => (Done (Some d),
                   [ReadCsvUpload f; StSuccess "Archivo cargado correctamente!"], w)
      | None => (Raised (LibraryError "pd.read_csv"), [ReadCsvUpload f], w)
      end
    else
      match pd_read_excel f with
      | Some d => (Done (Some d),
                   [ReadExcelUpload f; StSuccess "Archivo cargado correctamente!"], w)
      | None => (Raised (LibraryError "pd.read_excel"), [ReadExcelUpload f], w)
      end.
Proof.
  intros Hs. unfold load. rewrite Hs.
  destruct (endswith (name f) ".csv").
  - destruct (pd_read_csv f); reflexivity.
  - destruct (pd_read_excel f); reflexivity.
Qed.

Lemma load_rejected (f : UploadedFile) w :
  too_large f = true ->
  load (Some f) w =
    (Done None, [StError (ErrTooLarge (file_size f) MAX_SIZE_MB)], w).
Proof. intros Hs. unfold load. rewrite Hs. reflexivity. Qed.

(** What [load] does without an upload. *)
Lemma load_example w :
  load None w =
    match pd_read_csv_path "data/datos_grupasa.csv" with
    | Some d => (Done (Some d),
                 [ReadCsvPath "data/datos_grupasa.csv";
                  StInfo "Usando dataset sintético de ejemplo."], w)
    | None => (Raised (LibraryError "pd.read_csv"),
               [ReadCsvPath "data/datos_grupasa.csv"], w)
    end.
Proof.
  unfold load. destruct (pd_read_csv_path "data/datos_grupasa.csv"); reflexivity.
Qed.

(** With [df] unbound the first test of the validation loop raises. *)
Lemma forecast_all_unbound (cfg : Config) w :
  forecast_all None cfg w = (Raised (NameError "df"), [], w).
Proof. reflexivity. Qed.

Lemma after_load_unbound (cfg : Config) w :
  after_load None cfg w = (Raised (NameError "df"), [], w).
Proof. reflexivity. Qed.

(** The calls of [load] are reads and notifications only. *)
Lemma load_makes_no_forecast (up : option UploadedFile) w :
  existsb forecasts_or_exports (events (load up w)) = false.
Proof.
  destruct up as [f|];
    [|rewrite ?load_example; destruct (pd_read_csv_path _); reflexivity].
  destruct (too_large f) eqn:Hs.
  - now rewrite load_rejected.
  - rewrite load_accepted by assumption.
    destruct (endswith (name f) ".csv");
      [destruct (pd_read_csv f) | destruct (pd_read_excel f)]; reflexivity.
Qed.

(** The validation loop stops at the first column of its list that the table
    lacks. *)
Lemma validate_stops (d : DataFrame) (required : list string) (col : string) w :
  find (fun c => negb (in_columns c d)) required = Some col ->
  validate required (Some d) w = (Stopped, [StError (ErrMissingColumn col)], w).
Proof.
  induction required as [|c rest IH]; simpl; [discriminate|].
  intros H. rewrite bind_ret.
  destruct (negb (in_columns c d)) eqn:Hc.
  - injection H as ->. reflexivity.
  - auto.
Qed.

Lemma validate_passes (d : DataFrame) (required : list string) w :
  (forall c, In c required -> in_columns c d = true) ->
  validate required (Some d) w = (Done tt, [], w).
Proof.
  induction required as [|c rest IH]; simpl; intros H; [reflexivity|].
  rewrite bind_ret, (H c) by auto. simpl. auto.
Qed.

(** C10: the size test is strict.  The size error is shown exactly when the
    size in megabytes is strictly above [MAX_SIZE_MB], that is when the file
    has more than 5 * 1024 * 1024 bytes; a file of exactly that many bytes is
    accepted: no error is shown and the reader for its extension is called on
    it. *)
Theorem size_check_is_strict (f : UploadedFile) (w : World) :
  (In (StError (ErrTooLarge (file_size f) MAX_SIZE_MB)) (events (load (Some f) w))
   <-> (inject_Z MAX_SIZE_MB < file_size f)%Q) /\
  ((inject_Z MAX_SIZE_MB < file_size f)%Q <-> (5 * 1024 * 1024 < size f)%N) /\
  (size f = (5 * 1024 * 1024)%N ->
   existsb reads_upload (events (load (Some f) w)) = true /\
   forall msg, ~ In (StError msg) (events (load (Some f) w))).
Proof.
  split; [|split].
  - rewrite <- too_large_megabytes. destruct (too_large f) eqn:Hs.
    + rewrite load_rejected by assumption. simpl. tauto.
    + rewrite load_accepted by assumption.
      split; [|discriminate]. intros H. exfalso.
      destruct (endswith (name f) ".csv");
        [destruct (pd_read_csv f) | destruct (pd_read_excel f)];
        simpl in H; intuition discriminate.
  - rewrite <- too_large_megabytes. apply too_large_bytes.
  - intros Hsz.
    assert (Hs : too_large f = false).
    { destruct (too_large f) eqn:E; [|reflexivity].
      apply too_large_bytes in E. rewrite Hsz in E. now apply N.lt_irrefl in E. }
    rewrite load_accepted by assumption.
    destruct (endswith (name f) ".csv");
      [destruct (pd_read_csv f) | destruct (pd_read_excel f)];
      (split; [reflexivity | intros msg H; simpl in H; intuition discriminate]).
Qed.

(** C1: an upload of more than 5 MB.  The page shows the size error and makes
    no other call: the variable [df] is left unbound, so the first test of the
    validation raises a [NameError] and the execution ends there, the file
    unread, no model fitted and no download offered. *)
Theorem oversized_upload_halts_before_parsing
    (f : UploadedFile) (cfg : Config) (w : World) :
  (5 * 1024 * 1024 < size f)%N ->
  app (Some f) cfg w =
    (Raised (NameError "df"), [StError (ErrTooLarge (file_size f) MAX_SIZE_MB)], w)
  /\ existsb reads_upload (events (app (Some f) cfg w)) = false
  /\ existsb forecasts_or_exports (events (app (Some f) cfg w)) = false.
Proof.
  intros Hsz. apply too_large_bytes in Hsz.
  assert (E : app (Some f) cfg w =
    (Raised (NameError "df"), [StError (ErrTooLarge (file_size f) MAX_SIZE_MB)], w)).
  { unfold app. rewrite (bind_done _ _ _ _ _ _ (load_rejected f w Hsz)).
    rewrite after_load_unbound. reflexivity. }
  rewrite E. repeat split.
Qed.

(** C2: a loaded table that lacks a required column.  The page shows the error
    naming the first such column, in the order sku, fecha, demanda_real, and
    [st.stop()] ends the execution: after the loader's own calls nothing else
    is called, so no tab, fit, chart, table or download. *)
Theorem missing_column_stops_render
    (up : option UploadedFile) (cfg : Config) (w : World)
    (d : DataFrame) (l0 : list Event) (w0 : World) :
  load up w = (Done (Some d), l0, w0) ->
  (exists c, In c required_cols /\ in_columns c d = false) ->
  exists col,
    first_missing d = Some col
    /\ In col required_cols /\ in_columns col d = false
    /\ app up cfg w = (Stopped, l0 ++ [StError (ErrMissingColumn col)], w0)
    /\ existsb forecasts_or_exports (events (app up cfg w)) = false.
Proof.
  intros Hload [c [Hin Hc]].
  destruct (first_missing d) as [col|] eqn:Hf.
  - exists col.
    assert (E : app up cfg w = (Stopped, l0 ++ [StError (ErrMissingColumn col)], w0)).
    { unfold app. rewrite (bind_done _ _ _ _ _ _ Hload).
      unfold after_load, forecast_all.
      rewrite (bind_stopped _ _ w0 [StError (ErrMissingColumn col)] w0).
      - reflexivity.
      - apply bind_stopped. now apply validate_stops. }
    unfold first_missing in Hf. pose proof (find_some _ _ Hf) as [H1 H2].
    apply negb_true_iff in H2.
    repeat split; auto.
    rewrite E. unfold events. simpl. rewrite existsb_app. simpl.
    pose proof (load_makes_no_forecast up w) as Hl. rewrite Hload in Hl.
    unfold events in Hl. simpl in Hl. now rewrite Hl.
  - exfalso. unfold first_missing in Hf.
    pose proof (find_none _ _ Hf c Hin) as H. simpl in H.
    rewrite Hc in H. discriminate.
Qed.

End LoaderAndValidator.

(** ** Facts about frames *)

Section Frames.

Lemma lookup_replace_same c s l :
  lookup_col c (replace_col c s l) = Some s.
Proof.
  induction l as [|[k s0] rest IH]; simpl.
  - now rewrite String.eqb_refl.
  - destruct (String.eqb c k) eqn:E; simpl; rewrite E; auto.
Qed.

Lemma lookup_replace_other c c' s l :
  String.eqb c' c = false ->
  lookup_col c' (replace_col c s l) = lookup_col c' l.
Proof.
  intros Hne. induction l as [|[k s0] rest IH]; simpl.
  - now rewrite Hne.
  - destruct (String.eqb c k) eqn:E; simpl.
    + apply String.eqb_eq in E. subst k. now rewrite Hne.
    + destruct (String.eqb c' k); auto.
Qed.

Lemma getitem_setitem_same c s d : getitem c (setitem c s d) = Some s.
Proof. apply lookup_replace_same. Qed.

Lemma getitem_setitem_other c c' s d :
  String.eqb c' c = false -> getitem c' (setitem c s d) = getitem c' d.
Proof. apply lookup_replace_other. Qed.

Lemma in_columns_getitem c d :
  in_columns c d = true <-> exists s, getitem c d = Some s.
Proof.
  unfold in_columns, getitem, columns.
  induction (cols d) as [|[k s0] rest IH]; simpl.
  - split; [discriminate | intros [s H]; discriminate].
  - destruct (String.eqb c k); simpl; [|exact IH].
    split; eauto.
Qed.

Lemma getitem_none_not_in c d :
  getitem c d = None <-> in_columns c d = false.
Proof.
  rewrite <- not_true_iff_false, in_columns_getitem.
  destruct (getitem c d) as [s|].
  - split; [discriminate | intros H; exfalso; eauto].
  - split; [intros _ [s H]; discriminate | reflexivity].
Qed.

Lemma getitem_some_in c d s :
  getitem c d = Some s -> In (c, s) (cols d).
Proof.
  unfold getitem. induction (cols d) as [|[k s0] rest IH]; simpl; [discriminate|].
  destruct (String.eqb c k) eqn:E.
  - apply String.eqb_eq in E. subst k. intros [= ->]. now left.
  - intros H. right. auto.
Qed.

Lemma getitem_length c d s :
  wf_frame d -> getitem c d = Some s -> List.length s = nrows d.
Proof.
  intros Hwf H. apply getitem_some_in in H.
  unfold wf_frame in Hwf. rewrite Forall_forall in Hwf. exact (Hwf _ H).
Qed.

Lemma col_or_nan_length c d :
  wf_frame d -> List.length (col_or_nan c d) = nrows d.
Proof.
  intros Hwf. unfold col_or_nan. destruct (getitem c d) eqn:E.
  - eauto using getitem_length.
  - apply repeat_length.
Qed.

Lemma wf_replace_col c s l n :
  List.length s = n ->
  Forall (fun cs => List.length (snd cs) = n) l ->
  Forall (fun cs => List.length (snd cs) = n) (replace_col c s l).
Proof.
  intros Hs. induction 1 as [|[k s0] rest Hk Hrest IH]; simpl.
  - now constructor.
  - destruct (String.eqb c k); constructor; auto.
Qed.

Lemma wf_setitem c s d :
  wf_frame d -> List.length s = nrows d -> wf_frame (setitem c s d).
Proof. intros Hwf Hs. unfold wf_frame, setitem. simpl. now apply wf_replace_col. Qed.

Lemma wf_setitem_scalar c v d :
  wf_frame d -> wf_frame (setitem_scalar c v d).
Proof. intros Hwf. apply wf_setitem; [assumption | apply repeat_length]. Qed.

Lemma getitem_setitem_scalar c v d :
  getitem c (setitem_scalar c v d) = Some (repeat v (nrows d)).
Proof. apply getitem_setitem_same. Qed.

Lemma nrows_setitem_scalar c v d : nrows (setitem_scalar c v d) = nrows d.
Proof. reflexivity. Qed.

Lemma wf_frame_of_dates l : wf_frame (frame_of_dates l).
Proof. unfold wf_frame, frame_of_dates. simpl. constructor; [|constructor].
  simpl. apply length_map. Qed.

(** *** [unique] *)

Lemma scalar_eq_refl_key v : same_key v v = true.
Proof.
  destruct v; simpl.
  - apply String.eqb_refl.
  - apply Z.eqb_refl.
  - apply Qeq_bool_iff. reflexivity.
  - apply Z.eqb_refl.
  - reflexivity.
Qed.

Lemma unique_from_avoids seen s :
  Forall (fun u => existsb (same_key u) seen = false) (unique_from seen s).
Proof.
  revert seen. induction s as [|v rest IH]; intros seen; simpl; [constructor|].
  destruct (existsb (same_key v) seen) eqn:E; [apply IH|].
  constructor; [assumption|].
  specialize (IH (v :: seen)). rewrite Forall_forall in *.
  intros u Hu. specialize (IH u Hu). simpl in IH.
  apply orb_false_iff in IH. tauto.
Qed.

Lemma unique_from_distinct seen s : keys_distinct (unique_from seen s).
Proof.
  revert seen. induction s as [|v rest IH]; intros seen; simpl; [exact I|].
  destruct (existsb (same_key v) seen); [apply IH|].
  simpl. split; [|apply IH].
  pose proof (unique_from_avoids (v :: seen) rest) as H.
  rewrite Forall_forall in *. intros u Hu. specialize (H u Hu). simpl in H.
  apply orb_false_iff in H. tauto.
Qed.

Lemma unique_from_covers seen s v :
  In v s -> existsb (same_key v) (seen ++ unique_from seen s) = true.
Proof.
  revert seen. induction s as [|x rest IH]; intros seen Hin; [contradiction|].
  simpl. destruct Hin as [->|Hin].
  - destruct (existsb (same_key v) seen) eqn:E.
    + rewrite existsb_app, E. reflexivity.
    + rewrite existsb_app. simpl. rewrite scalar_eq_refl_key.
      now rewrite orb_true_r.
  - destruct (existsb (same_key x) seen) eqn:E; [auto|].
    specialize (IH (x :: seen) Hin).
    rewrite existsb_app in IH |- *. simpl in IH |- *.
    destruct (same_key v x), (existsb (same_key v) seen); simpl in *; auto.
Qed.

Lemma unique_from_incl seen s v : In v (unique_from seen s) -> In v s.
Proof.
  revert seen. induction s as [|x rest IH]; intros seen; simpl; [tauto|].
  destruct (existsb (same_key x) seen); simpl; [eauto|].
  intros [->|H]; eauto.
Qed.

(** [unique] lists every key of the series once. *)
Lemma unique_spec s :
  keys_distinct (unique s)
  /\ (forall v, In v s -> existsb (same_key v) (unique s) = true)
  /\ (forall v, In v (unique s) -> In v s).
Proof.
  split; [apply unique_from_distinct|split].
  - intros v Hv. exact (unique_from_covers [] s v Hv).
  - apply unique_from_incl.
Qed.

Lemma unique_nil_inv s : unique s = [] -> s = [].
Proof. destruct s; [reflexivity | discriminate]. Qed.

End Frames.

(** ** Columns and rows *)

Section Rows.

Lemma rows_from_length n cs : List.length (rows_from n cs) = n.
Proof. revert cs. induction n; intros cs; simpl; auto. Qed.

Lemma length_zero_nil {A : Type} (l : list A) : List.length l = 0 -> l = [].
Proof. destruct l; [reflexivity | discriminate]. Qed.

Lemma Forall_tl_length n (cs : list Series) :
  Forall (fun s => List.length s = S n) cs ->
  Forall (fun s => List.length s = n) (map (@tl Scalar) cs).
Proof.
  intros H. rewrite Forall_forall in *. intros s Hs.
  apply in_map_iff in Hs as [s0 [<- Hs0]]. specialize (H s0 Hs0).
  destruct s0; simpl in *; [discriminate | lia].
Qed.

(** A column is the cells of the rows at its position. *)
Lemma column_of_rows n cs j :
  Forall (fun s => List.length s = n) cs ->
  j < List.length cs ->
  nth j cs [] = map (fun row => nth j row SNaN) (rows_from n cs).
Proof.
  revert cs. induction n as [|k IH]; intros cs Hwf Hj.
  - simpl. apply length_zero_nil. rewrite Forall_forall in Hwf.
    apply Hwf. now apply nth_In.
  - simpl. rewrite <- IH.
    + rewrite (map_nth (@tl Scalar) cs [] j : nth j (map (@tl Scalar) cs) [] = _).
      rewrite (map_nth (hd SNaN) cs [] j : nth j (map (hd SNaN) cs) SNaN = _).
      assert (Hl : List.length (nth j cs []) = S k).
      { rewrite Forall_forall in Hwf. apply Hwf. now apply nth_In. }
      destruct (nth j cs []); [discriminate | reflexivity].
    + now apply Forall_tl_length.
    + now rewrite length_map.
Qed.

Lemma rows_from_inj n cs1 cs2 :
  Forall (fun s => List.length s = n) cs1 ->
  Forall (fun s => List.length s = n) cs2 ->
  List.length cs1 = List.length cs2 ->
  rows_from n cs1 = rows_from n cs2 -> cs1 = cs2.
Proof.
  intros H1 H2 Hlen Hrows.
  apply (nth_ext cs1 cs2 [] [] Hlen). intros j Hj.
  rewrite (column_of_rows n cs1 j H1 Hj).
  rewrite (column_of_rows n cs2 j H2) by lia.
  now rewrite Hrows.
Qed.

Lemma split_fst_snd {A B : Type} (l : list (A * B)) :
  l = combine (map fst l) (map snd l).
Proof. induction l as [|[a b] l IH]; simpl; [reflexivity | now f_equal]. Qed.

Lemma wf_frame_series d :
  wf_frame d -> Forall (fun s => List.length s = nrows d) (map snd (cols d)).
Proof.
  unfold wf_frame. intros H. rewrite Forall_forall in *. intros s Hs.
  apply in_map_iff in Hs as [cs [<- Hcs]]. auto.
Qed.

Lemma observations_length d : List.length (observations d) = nrows d.
Proof. apply rows_from_length. Qed.

(** A frame is its column names and its rows. *)
Lemma frame_ext d1 d2 :
  wf_frame d1 -> wf_frame d2 ->
  columns d1 = columns d2 ->
  observations d1 = observations d2 ->
  d1 = d2.
Proof.
  intros H1 H2 Hc Ho.
  assert (Hn : nrows d1 = nrows d2).
  { rewrite <- (observations_length d1), <- (observations_length d2). now rewrite Ho. }
  destruct d1 as [n1 c1], d2 as [n2 c2]. unfold columns, observations in *.
  simpl in *. subst n2. f_equal.
  rewrite (split_fst_snd c1), (split_fst_snd c2). rewrite Hc. f_equal.
  apply (rows_from_inj n1); auto using wf_frame_series.
  - exact (wf_frame_series {| nrows := n1; cols := c1 |} H1).
  - exact (wf_frame_series {| nrows := n1; cols := c2 |} H2).
  - rewrite !length_map. apply (f_equal (@List.length string)) in Hc.
    now rewrite !length_map in Hc.
Qed.

Lemma select_mask_length {A B : Type} mask (l1 : list A) (l2 : list B) :
  List.length l1 = List.length l2 ->
  List.length (select_mask mask l1) = List.length (select_mask mask l2).
Proof.
  revert l1 l2. induction mask as [|b m IH]; intros l1 l2 H; [reflexivity|].
  destruct l1, l2; simpl in *; try discriminate; [reflexivity|].
  destruct b; simpl; auto.
Qed.

Lemma select_mask_map_filter {A : Type} (p : A -> bool) (l : list A) :
  select_mask (map p l) l = filter p l.
Proof.
  induction l as [|x l IH]; simpl; [reflexivity|].
  destruct (p x); now rewrite IH.
Qed.

Lemma select_mask_nil {A : Type} mask : select_mask mask (@nil A) = [].
Proof. now destruct mask. Qed.

(** Filtering every column by a mask filters the rows by it. *)
Lemma rows_from_select_mask n mask cs (ix : list nat) :
  Forall (fun s => List.length s = n) cs ->
  List.length ix = n ->
  rows_from (List.length (select_mask mask ix)) (map (select_mask mask) cs)
  = select_mask mask (rows_from n cs).
Proof.
  revert mask cs ix. induction n as [|k IH]; intros mask cs ix Hwf Hix.
  - apply length_zero_nil in Hix. subst ix. rewrite select_mask_nil.
    simpl. now rewrite select_mask_nil.
  - destruct ix as [|i ix]; [discriminate|]. injection Hix as Hix.
    destruct mask as [|b m]; [reflexivity|].
    assert (Htl : map (select_mask (b :: m)) cs
                  = if b then map (fun s => hd SNaN s :: select_mask m (tl s)) cs
                    else map (select_mask m) (map (@tl Scalar) cs)).
    { destruct b; [|rewrite map_map]; apply map_ext_in; intros s Hs;
        rewrite Forall_forall in Hwf; specialize (Hwf s Hs);
        destruct s; simpl in *; try discriminate; reflexivity. }
    rewrite Htl. simpl. destruct b; simpl.
    + rewrite !map_map. simpl. f_equal.
      rewrite <- (map_map (@tl Scalar) (select_mask m)).
      apply IH; [now apply Forall_tl_length | assumption].
    + apply IH; [now apply Forall_tl_length | assumption].
Qed.

Lemma index_of_getitem c d s :
  getitem c d = Some s ->
  index_of c (columns d) < List.length (cols d)
  /\ nth (index_of c (columns d)) (map snd (cols d)) [] = s.
Proof.
  unfold getitem, columns. induction (cols d) as [|[k s0] rest IH]; simpl;
    [discriminate|].
  destruct (String.eqb c k).
  - intros [= ->]. split; [lia | reflexivity].
  - intros H. destruct (IH H). split; [lia | assumption].
Qed.

(** A column holds the cells of the rows under its name. *)
Lemma getitem_observations c d s :
  wf_frame d -> getitem c d = Some s ->
  s = map (value_at c d) (observations d).
Proof.
  intros Hwf H. destruct (index_of_getitem c d s H) as [Hlt <-].
  unfold value_at, observations.
  apply column_of_rows; [now apply wf_frame_series | now rewrite length_map].
Qed.

Lemma columns_filter_rows mask d : columns (filter_rows mask d) = columns d.
Proof. unfold columns, filter_rows. simpl. now rewrite map_map. Qed.

Lemma wf_filter_rows mask d : wf_frame d -> wf_frame (filter_rows mask d).
Proof.
  unfold wf_frame, filter_rows. simpl. intros H. rewrite Forall_forall in *.
  intros cs Hcs. apply in_map_iff in Hcs as [cs0 [<- Hcs0]]. simpl.
  apply select_mask_length. rewrite length_seq. auto.
Qed.

(** The rows [df[df[c] == v]] keeps are the rows whose cell under [c] is
    [==] to [v]. *)
Lemma observations_filter_rows c d s (p : Scalar -> bool) :
  wf_frame d -> getitem c d = Some s ->
  observations (filter_rows (map p s) d)
  = filter (fun row => p (value_at c d row)) (observations d).
Proof.
  intros Hwf H. unfold observations at 1. unfold filter_rows. simpl.
  rewrite map_map. simpl.
  match goal with
  | |- rows_from _ ?cs = _ =>
      replace cs with (map (select_mask (map p s)) (map snd (cols d)))
        by (rewrite map_map; reflexivity)
  end.
  rewrite (rows_from_select_mask (nrows d));
    [| now apply wf_frame_series | apply length_seq].
  fold (observations d).
  rewrite (getitem_observations c d s Hwf H) at 1.
  rewrite map_map. apply select_mask_map_filter.
Qed.

End Rows.

(** ** [pd.concat] *)

Section Concat.

Lemma lookup_map_names (F : string -> Series) names c :
  lookup_col c (map (fun k => (k, F k)) names)
  = if existsb (String.eqb c) names then Some (F c) else None.
Proof.
  induction names as [|k rest IH]; simpl; [reflexivity|].
  destruct (String.eqb c k) eqn:E; simpl; [|exact IH].
  apply String.eqb_eq in E. now subst k.
Qed.

Lemma existsb_union_names c seen l :
  existsb (String.eqb c) (union_names seen l)
  = negb (existsb (String.eqb c) seen) && existsb (String.eqb c) l.
Proof.
  revert seen. induction l as [|x rest IH]; intros seen; simpl.
  - now rewrite andb_false_r.
  - destruct (existsb (String.eqb x) seen) eqn:Ex; simpl; rewrite IH; simpl;
      destruct (String.eqb c x) eqn:E; simpl; try reflexivity.
    + apply String.eqb_eq in E. subst x. now rewrite Ex.
    + apply String.eqb_eq in E. subst x. now rewrite Ex.
Qed.

Lemma columns_reindex names d : columns (reindex names d) = names.
Proof. unfold columns, reindex. simpl. rewrite map_map. simpl. apply map_id. Qed.

Lemma wf_reindex names d : wf_frame d -> wf_frame (reindex names d).
Proof.
  intros Hwf. unfold wf_frame, reindex. simpl. rewrite Forall_forall.
  intros cs Hcs. apply in_map_iff in Hcs as [c [<- _]]. simpl.
  now apply col_or_nan_length.
Qed.

Lemma getitem_reindex names d c :
  existsb (String.eqb c) names = true ->
  getitem c (reindex names d) = Some (col_or_nan c d).
Proof.
  intros H. unfold getitem, reindex. simpl.
  now rewrite (lookup_map_names (fun k => col_or_nan k d)), H.
Qed.

Lemma columns_concat frames d :
  pd_concat frames = Some d ->
  columns d = union_names [] (flat_map columns frames).
Proof.
  destruct frames as [|fc rest]; [discriminate|]. intros [= <-].
  unfold columns at 1. simpl. rewrite map_map. simpl. apply map_id.
Qed.

Lemma in_columns_concat frames d c :
  pd_concat frames = Some d ->
  in_columns c d = existsb (in_columns c) frames.
Proof.
  intros H. unfold in_columns at 1. rewrite (columns_concat _ _ H).
  rewrite existsb_union_names. simpl. clear H.
  induction frames as [|fc rest IH]; simpl; [reflexivity|].
  rewrite existsb_app, IH. reflexivity.
Qed.

(** Each column of the concatenation is that column of the frames, in order. *)
Lemma getitem_concat frames d c :
  pd_concat frames = Some d ->
  in_columns c d = true ->
  getitem c d = Some (flat_map (col_or_nan c) frames).
Proof.
  intros H Hin. unfold in_columns in Hin. rewrite (columns_concat _ _ H) in Hin.
  destruct frames as [|fc rest]; [discriminate|]. injection H as <-.
  unfold getitem. cbn [cols].
  rewrite (lookup_map_names (fun k => flat_map (col_or_nan k) (fc :: rest))).
  simpl in Hin. now rewrite Hin.
Qed.

Lemma flat_map_col_length c frames :
  Forall wf_frame frames ->
  List.length (flat_map (col_or_nan c) frames) = list_sum (map nrows frames).
Proof.
  induction 1 as [|fc rest Hfc Hrest IH]; simpl; [reflexivity|].
  now rewrite length_app, col_or_nan_length, IH.
Qed.

Lemma wf_concat frames d :
  Forall wf_frame frames -> pd_concat frames = Some d ->
  wf_frame d /\ nrows d = list_sum (map nrows frames).
Proof.
  intros Hwf H. destruct frames as [|fc rest]; [discriminate|]. injection H as <-.
  split; [|reflexivity]. unfold wf_frame. cbn [nrows cols].
  rewrite Forall_forall. intros cs Hcs. apply in_map_iff in Hcs as [c [<- _]].
  exact (flat_map_col_length c (fc :: rest) Hwf).
Qed.

Lemma rows_from_app (f g : string -> Series) names n1 n2 :
  (forall c, In c names -> List.length (f c) = n1) ->
  rows_from (n1 + n2) (map (fun c => f c ++ g c) names)
  = rows_from n1 (map f names) ++ rows_from n2 (map g names).
Proof.
  revert f. induction n1 as [|k IH]; intros f Hf.
  - simpl. f_equal. apply map_ext_in. intros c Hc.
    now rewrite (length_zero_nil _ (Hf c Hc)).
  - assert (E1 : map (hd SNaN) (map (fun c => f c ++ g c) names)
                 = map (hd SNaN) (map f names)).
    { rewrite !map_map. apply map_ext_in. intros c Hc. specialize (Hf c Hc).
      destruct (f c); [discriminate | reflexivity]. }
    assert (E2 : map (@tl Scalar) (map (fun c => f c ++ g c) names)
                 = map (fun c => tl (f c) ++ g c) names).
    { rewrite map_map. apply map_ext_in. intros c Hc. specialize (Hf c Hc).
      destruct (f c); [discriminate | reflexivity]. }
    assert (E3 : map (@tl Scalar) (map f names) = map (fun c => tl (f c)) names)
      by apply map_map.
    simpl. rewrite E1, E2, E3. f_equal.
    apply (IH (fun c => tl (f c))).
    intros c Hc. specialize (Hf c Hc).
    destruct (f c); simpl in *; [discriminate | lia].
Qed.

Lemma rows_from_flat_map names frames :
  Forall wf_frame frames ->
  rows_from (list_sum (map nrows frames))
            (map (fun c => flat_map (col_or_nan c) frames) names)
  = flat_map (fun fc => rows_from (nrows fc) (map (fun c => col_or_nan c fc) names))
             frames.
Proof.
  induction 1 as [|fc rest Hfc Hrest IH]; [reflexivity|].
  simpl. rewrite <- IH.
  apply (rows_from_app (fun c => col_or_nan c fc)
                       (fun c => flat_map (col_or_nan c) rest)).
  intros c _. now apply col_or_nan_length.
Qed.

Lemma concat_shape frames d :
  pd_concat frames = Some d ->
  d = {| nrows := list_sum (map nrows frames);
         cols := map (fun c => (c, flat_map (col_or_nan c) frames))
                     (union_names [] (flat_map columns frames)) |}.
Proof. destruct frames; [discriminate|]. now intros [= <-]. Qed.

(** The rows of the concatenation are the rows of the frames, each laid out on
    the columns of the result: in order, none lost, none repeated. *)
Lemma observations_concat frames d :
  Forall wf_frame frames -> pd_concat frames = Some d ->
  observations d = flat_map (fun fc => observations (reindex (columns d) fc)) frames.
Proof.
  intros Hwf H. rewrite (columns_concat _ _ H).
  rewrite (concat_shape _ _ H). unfold observations at 1. cbn [nrows cols].
  rewrite map_map. cbn [snd]. rewrite (rows_from_flat_map _ _ Hwf).
  apply flat_map_ext. intros a. unfold observations, reindex. cbn [nrows cols].
  now rewrite map_map.
Qed.

(** Laying a frame out on more columns keeps the cells under its own. *)
Lemma value_at_reindex names d c i :
  wf_frame d ->
  existsb (String.eqb c) names = true ->
  nth (index_of c names) (nth i (observations (reindex names d)) []) SNaN
  = nth i (col_or_nan c d) SNaN.
Proof.
  intros Hwf Hc.
  pose proof (getitem_observations c (reindex names d) _ (wf_reindex names d Hwf)
                (getitem_reindex names d c Hc)) as E.
  assert (Hd : value_at c (reindex names d) [] = SNaN).
  { unfold value_at. now destruct (index_of c (columns (reindex names d))). }
  transitivity (nth i (map (value_at c (reindex names d))
                           (observations (reindex names d)))
                    (value_at c (reindex names d) [])).
  - rewrite map_nth. unfold value_at. now rewrite columns_reindex.
  - rewrite Hd. now rewrite <- E.
Qed.

(** Every row of every frame is a row of the concatenation, with the same
    cells under the columns of the result. *)
Lemma row_in_concat frames d fc i :
  Forall wf_frame frames -> pd_concat frames = Some d ->
  In fc frames -> i < nrows fc ->
  exists row,
    In row (observations d)
    /\ forall c, in_columns c d = true ->
                 value_at c d row = nth i (col_or_nan c fc) SNaN.
Proof.
  intros Hwf H Hin Hi.
  exists (nth i (observations (reindex (columns d) fc)) []). split.
  - rewrite (observations_concat _ _ Hwf H). apply in_flat_map.
    exists fc. split; [assumption|]. apply nth_In.
    now rewrite observations_length.
  - intros c Hc. unfold value_at. apply value_at_reindex; [|exact Hc].
    rewrite Forall_forall in Hwf. auto.
Qed.

End Concat.

(** ** One SKU *)

Section OneSku.

Context {L : Libs}.

Lemma bind_raise {A B : Type} (e : Exn) (k : A -> M B) w :
  bind (raise e) k w = (Raised e, [], w).
Proof. reflexivity. Qed.

(** What [prepare] evaluates to. *)
Lemma prepare_result (df_sku : DataFrame) w :
  prepare df_sku w =
    match getitem "fecha" df_sku with
    | None => (Raised (KeyError ["fecha"]), [], w)
    | Some fecha =>
        match pd_to_datetime fecha with
        | None => (Raised (LibraryError "pd.to_datetime"), [], w)
        | Some ds =>
            match getitem "demanda_real" (setitem "ds" ds df_sku) with
            | None => (Raised (KeyError ["demanda_real"]), [], w)
            | Some y =>
                (Done {| nrows := nrows df_sku; cols := [("ds", ds); ("y", y)] |},
                 [], w)
            end
        end
    end.
Proof.
  unfold prepare, item.
  destruct (getitem "fecha" df_sku) as [fecha|]; [|reflexivity].
  rewrite bind_ret. unfold external.
  destruct (pd_to_datetime fecha) as [ds|]; [|reflexivity].
  rewrite bind_ret.
  destruct (getitem "demanda_real" (setitem "ds" ds df_sku)) as [y|]; [|reflexivity].
  rewrite bind_ret. unfold items, select_columns. cbn [getitems].
  rewrite getitem_setitem_other by reflexivity.
  rewrite !getitem_setitem_same. reflexivity.
Qed.

Lemma training_frame_result (d : DataFrame) (sku : Scalar) w :
  training_frame d sku w =
    match getitem "sku" d with
    | None => (Raised (KeyError ["sku"]), [], w)
    | Some col => prepare (filter_rows (map (fun v => scalar_eq v sku) col) d) w
    end.
Proof.
  unfold training_frame, item. destruct (getitem "sku" d); [|reflexivity].
  now rewrite bind_ret.
Qed.

(** The training frame is computed without a call and without the state
    outside. *)
Lemma training_frame_pure (d : DataFrame) (sku : Scalar) w w0 :
  training_frame d sku w = (outcome (training_frame d sku w0), [], w).
Proof.
  rewrite !training_frame_result. destruct (getitem "sku" d) as [col|]; [|reflexivity].
  rewrite !prepare_result.
  repeat match goal with
         | |- context [match ?x with Some _ => _ | None => _ end] => destruct x
         end; reflexivity.
Qed.

(** What the body of the loop evaluates to. *)
Lemma forecast_sku_result (d : DataFrame) (cfg : Config) (sku : Scalar) w :
  forecast_sku (Some d) cfg sku w =
    match outcome (training_frame d sku w) with
    | Done train =>
        let fit_call := ProphetFit (seasonality_mode cfg) train in
        match prophet_fit (seasonality_mode cfg) train with
        | None => (Raised (LibraryError "Prophet.fit"), [StMarkdown sku; fit_call], w)
        | Some m =>
            match make_future_dataframe m (periods cfg) with
            | None => (Raised (LibraryError "Prophet.make_future_dataframe"),
                       [StMarkdown sku; fit_call], w)
            | Some future =>
                match prophet_predict m future with
                | None => (Raised (LibraryError "Prophet.predict"),
                           [StMarkdown sku; fit_call; ProphetPredict future], w)
                | Some sample =>
                    let fc := setitem_scalar "sku" sku (fst (sample w)) in
                    match select_columns display_cols fc with
                    | None => (Raised (KeyError display_cols),
                               [StMarkdown sku; fit_call; ProphetPredict future;
                                StPlotlyChart fc; StPyplot fc], snd (sample w))
                    | Some shown =>
                        (Done fc,
                         [StMarkdown sku; fit_call; ProphetPredict future;
                          StPlotlyChart fc; StPyplot fc;
                          StDataframe (tail (periods cfg) shown)], snd (sample w))
                    end
                end
            end
        end
    | Stopped => (Stopped, [StMarkdown sku], w)
    | Raised e => (Raised e, [StMarkdown sku], w)
    end.
Proof.
  pose proof (training_frame_pure d sku w w) as Hp.
  destruct (training_frame d sku w) as [[o l0] w0] eqn:Et.
  unfold outcome in Hp. simpl in Hp. injection Hp as -> ->.
  unfold forecast_sku. rewrite bind_emit. unfold read_df. rewrite bind_ret.
  unfold bind at 1. rewrite Et. unfold outcome. simpl fst.
  destruct o as [train| |e]; try reflexivity.
  rewrite bind_emit. unfold external.
  destruct (prophet_fit (seasonality_mode cfg) train) as [m|]; [|reflexivity].
  rewrite bind_ret.
  destruct (make_future_dataframe m (periods cfg)) as [future|]; [|reflexivity].
  rewrite bind_ret. unfold predict.
  destruct (prophet_predict m future) as [sample|] eqn:Ep.
  - unfold bind at 1. rewrite bind_emit. unfold after_events at 2. simpl.
    unfold items.
    destruct (select_columns display_cols
                (setitem_scalar "sku" sku (fst (sample w)))); reflexivity.
  - reflexivity.
Qed.

End OneSku.

Section OneSkuFacts.

Context {L : Libs}.

(** A completed pass of the loop body, taken apart. *)
Lemma forecast_sku_done (d : DataFrame) (cfg : Config) (sku : Scalar) w fc l w' :
  forecast_sku (Some d) cfg sku w = (Done fc, l, w') ->
  exists train m future sample shown,
    outcome (training_frame d sku w) = Done train
    /\ prophet_fit (seasonality_mode cfg) train = Some m
    /\ make_future_dataframe m (periods cfg) = Some future
    /\ prophet_predict m future = Some sample
    /\ fc = setitem_scalar "sku" sku (fst (sample w))
    /\ w' = snd (sample w)
    /\ select_columns display_cols fc = Some shown
    /\ l = [StMarkdown sku; ProphetFit (seasonality_mode cfg) train;
            ProphetPredict future; StPlotlyChart fc; StPyplot fc;
            StDataframe (tail (periods cfg) shown)].
Proof.
  rewrite forecast_sku_result.
  destruct (outcome (training_frame d sku w)) as [train| |e]; try discriminate.
  cbv zeta.
  destruct (prophet_fit (seasonality_mode cfg) train) as [m|] eqn:Ef;
    try discriminate.
  destruct (make_future_dataframe m (periods cfg)) as [future|] eqn:Em;
    try discriminate.
  destruct (prophet_predict m future) as [sample|] eqn:Ep; try discriminate.
  destruct (select_columns display_cols
              (setitem_scalar "sku" sku (fst (sample w)))) as [shown|] eqn:Es;
    try discriminate.
  intros [= <- <- <-].
  exists train, m, future, sample, shown. repeat split; auto.
Qed.

Lemma training_frame_done (d : DataFrame) (sku : Scalar) w train :
  outcome (training_frame d sku w) = Done train ->
  exists col fecha ds y,
    getitem "sku" d = Some col
    /\ getitem "fecha" (filter_rows (map (fun v => scalar_eq v sku) col) d) = Some fecha
    /\ pd_to_datetime fecha = Some ds
    /\ train = {| nrows := nrows (filter_rows (map (fun v => scalar_eq v sku) col) d);
                  cols := [("ds", ds); ("y", y)] |}.
Proof.
  rewrite training_frame_result.
  destruct (getitem "sku" d) as [col|]; [|discriminate].
  rewrite prepare_result.
  destruct (getitem "fecha" _) as [fecha|] eqn:Ef; [|discriminate].
  destruct (pd_to_datetime fecha) as [ds|] eqn:Ed; [|discriminate].
  destruct (getitem "demanda_real" _) as [y|]; [|discriminate].
  unfold outcome. simpl. intros [= <-].
  exists col, fecha, ds, y. repeat split; auto.
Qed.

Lemma in_columns_same_names c d1 d2 :
  columns d1 = columns d2 -> in_columns c d1 = in_columns c d2.
Proof. unfold in_columns. now intros ->. Qed.

(** The rows of one SKU decide the frame its model is fitted on. *)
Lemma training_frame_same_observations (d1 d2 : DataFrame) (sku : Scalar) w :
  wf_frame d1 -> wf_frame d2 ->
  columns d1 = columns d2 ->
  observations_of d1 sku = observations_of d2 sku ->
  training_frame d1 sku w = training_frame d2 sku w.
Proof.
  intros H1 H2 Hc Ho. rewrite !training_frame_result.
  destruct (getitem "sku" d1) as [c1|] eqn:E1.
  - destruct (getitem "sku" d2) as [c2|] eqn:E2.
    + f_equal. apply frame_ext; auto using wf_filter_rows.
      * now rewrite !columns_filter_rows.
      * rewrite (observations_filter_rows "sku" d1 c1 (fun v => scalar_eq v sku) H1 E1).
        rewrite (observations_filter_rows "sku" d2 c2 (fun v => scalar_eq v sku) H2 E2).
        exact Ho.
    + exfalso. apply getitem_none_not_in in E2.
      rewrite <- (in_columns_same_names "sku" d1 d2 Hc) in E2.
      apply getitem_none_not_in in E2. congruence.
  - apply getitem_none_not_in in E1.
    rewrite (in_columns_same_names "sku" d1 d2 Hc) in E1.
    apply getitem_none_not_in in E1. now rewrite E1.
Qed.

(** C4: one model per SKU, fitted on that SKU alone.  Two tables with the same
    columns that agree on the rows of [sku] (the rows whose sku cell is [==]
    to it) give the same pass of the loop for [sku]: the same frame is handed
    to [fit], the same calls are made and the same forecast comes out,
    whatever the rows of the other SKUs are.  The frame handed to [fit] has one
    row per observation of [sku], and the column sku of the forecast holds
    [sku] in every row. *)
Theorem forecast_uses_only_own_observations
    (d1 d2 : DataFrame) (cfg : Config) (sku : Scalar) (w : World) :
  wf_frame d1 -> wf_frame d2 ->
  columns d1 = columns d2 ->
  observations_of d1 sku = observations_of d2 sku ->
  forecast_sku (Some d1) cfg sku w = forecast_sku (Some d2) cfg sku w
  /\ (forall mode train,
        In (ProphetFit mode train) (events (forecast_sku (Some d1) cfg sku w)) ->
        nrows train = List.length (observations_of d1 sku))
  /\ (forall fc l w',
        forecast_sku (Some d1) cfg sku w = (Done fc, l, w') ->
        getitem "sku" fc = Some (repeat sku (nrows fc))).
Proof.
  intros H1 H2 Hc Ho. split; [|split].
  - rewrite !forecast_sku_result.
    now rewrite (training_frame_same_observations d1 d2 sku w H1 H2 Hc Ho).
  - intros mode train Hin.
    assert (Ht : outcome (training_frame d1 sku w) = Done train).
    { rewrite forecast_sku_result in Hin.
      destruct (outcome (training_frame d1 sku w)) as [t| |e];
        [|simpl in Hin; intuition discriminate ..].
      cbv zeta in Hin.
      repeat match type of Hin with
             | context [match ?x with Some _ => _ | None => _ end] => destruct x
             end;
        unfold events in Hin; simpl in Hin;
        repeat (destruct Hin as [Hin|Hin]; [try discriminate|]);
        try contradiction; injection Hin as _ ->; reflexivity. }
    apply training_frame_done in Ht as (col & fecha & ds & y & Hcol & _ & _ & ->).
    cbn [nrows]. rewrite <- observations_length.
    rewrite (observations_filter_rows "sku" d1 col (fun v => scalar_eq v sku) H1 Hcol).
    reflexivity.
  - intros fc l w' Hdone.
    apply forecast_sku_done in Hdone
      as (train & m & future & sample & shown & _ & _ & _ & _ & -> & _).
    rewrite nrows_setitem_scalar. apply getitem_setitem_scalar.
Qed.

End OneSkuFacts.

(** ** The tail of a frame and the dates of a forecast *)

Section Tail.

Lemma rows_from_skipn k n cs :
  Forall (fun s => List.length s = n) cs ->
  rows_from (n - k) (map (skipn k) cs) = skipn k (rows_from n cs).
Proof.
  revert n cs. induction k as [|k IH]; intros n cs Hwf.
  - rewrite Nat.sub_0_r. simpl. f_equal. apply map_id.
  - destruct n as [|n]; [reflexivity|].
    simpl. rewrite <- IH by now apply Forall_tl_length.
    f_equal. rewrite map_map. apply map_ext_in. intros s Hs.
    rewrite Forall_forall in Hwf. specialize (Hwf s Hs).
    destruct s; [discriminate | reflexivity].
Qed.

(** The rows of [df.tail(n)] are the last [n] rows of [df]. *)
Lemma observations_tail n d :
  wf_frame d -> observations (tail n d) = lastn n (observations d).
Proof.
  intros Hwf. unfold tail, lastn. rewrite observations_length.
  unfold observations. cbn [nrows cols]. rewrite map_map. cbn [snd].
  replace (Nat.min n (nrows d)) with (nrows d - (nrows d - n)) by lia.
  rewrite <- rows_from_skipn by now apply wf_frame_series.
  f_equal. rewrite map_map. apply map_ext_in. intros cs Hcs.
  unfold wf_frame in Hwf. rewrite Forall_forall in Hwf.
  unfold lastn. now rewrite (Hwf cs Hcs).
Qed.

Lemma wf_tail n d : wf_frame d -> wf_frame (tail n d).
Proof.
  unfold wf_frame, tail. cbn [nrows cols]. intros H. rewrite Forall_forall in *.
  intros cs Hcs. apply in_map_iff in Hcs as [cs0 [<- Hcs0]]. cbn [snd].
  unfold lastn. rewrite length_skipn, (H cs0 Hcs0). lia.
Qed.

Lemma lastn_app {A : Type} (a b : list A) : lastn (List.length b) (a ++ b) = b.
Proof.
  unfold lastn. rewrite length_app.
  replace (List.length a + List.length b - List.length b) with (List.length a) by lia.
  rewrite skipn_app, skipn_all, Nat.sub_diag. reflexivity.
Qed.

Lemma lastn_map {A B : Type} (f : A -> B) n (l : list A) :
  lastn n (map f l) = map f (lastn n l).
Proof. unfold lastn. now rewrite length_map, skipn_map. Qed.

Lemma next_days_length last p : List.length (next_days last p) = p.
Proof. unfold next_days. now rewrite length_map, length_seq. Qed.

Lemma next_days_after last p : Forall (fun t => (last < t)%Z) (next_days last p).
Proof.
  unfold next_days. rewrite Forall_forall. intros t Ht.
  apply in_map_iff in Ht as [k [<- Hk]]. apply in_seq in Hk.
  unfold DAY. lia.
Qed.

Lemma fold_max_ge l t : (t <= fold_left Z.max l t)%Z.
Proof.
  revert t. induction l as [|x l IH]; intros t; simpl; [lia|].
  specialize (IH (Z.max t x)). lia.
Qed.

Lemma fold_max_bound l t : Forall (fun x => (x <= fold_left Z.max l t)%Z) l.
Proof.
  revert t. induction l as [|x l IH]; intros t; simpl; constructor.
  - pose proof (fold_max_ge l (Z.max t x)). lia.
  - apply IH.
Qed.

(** No date of the history is after the latest of them. *)
Lemma max_date_bound l last :
  max_date l = Some last -> Forall (fun t => (t <= last)%Z) l.
Proof.
  destruct l as [|t l]; [discriminate|]. intros [= <-]. constructor.
  - apply fold_max_ge.
  - apply fold_max_bound.
Qed.

End Tail.

(** ** Selections *)

Section Selections.

Lemma getitems_spec names d l :
  getitems names d = Some l ->
  map fst l = names
  /\ Forall (fun cs => getitem (fst cs) d = Some (snd cs)) l.
Proof.
  revert l. induction names as [|c rest IH]; simpl; intros l.
  - intros [= <-]. split; [reflexivity | constructor].
  - destruct (getitem c d) as [s|] eqn:E; [|discriminate].
    destruct (getitems rest d) as [l0|]; [|discriminate].
    intros [= <-]. destruct (IH l0 eq_refl) as [H1 H2].
    split; [simpl; now rewrite H1 | constructor; auto].
Qed.

Lemma lookup_getitems names d l c :
  getitems names d = Some l -> In c names -> lookup_col c l = getitem c d.
Proof.
  revert l. induction names as [|k rest IH]; simpl; intros l H Hin; [contradiction|].
  destruct (getitem k d) as [s|] eqn:E; [|discriminate].
  destruct (getitems rest d) as [l0|]; [|discriminate].
  injection H as <-. simpl. destruct (String.eqb c k) eqn:Ec.
  - apply String.eqb_eq in Ec. now subst k.
  - destruct Hin as [->|Hin]; [now rewrite String.eqb_refl in Ec | auto].
Qed.

Lemma lookup_map_series (f : Series -> Series) c l :
  lookup_col c (map (fun cs => (fst cs, f (snd cs))) l)
  = option_map f (lookup_col c l).
Proof.
  induction l as [|[k s] rest IH]; simpl; [reflexivity|].
  destruct (String.eqb c k); [reflexivity | exact IH].
Qed.

Lemma select_columns_spec names d r :
  select_columns names d = Some r ->
  columns r = names /\ nrows r = nrows d
  /\ (forall c, In c names -> getitem c r = getitem c d)
  /\ (wf_frame d -> wf_frame r).
Proof.
  unfold select_columns. destruct (getitems names d) as [l|] eqn:E; [|discriminate].
  intros [= <-]. destruct (getitems_spec _ _ _ E) as [H1 H2].
  repeat split; auto.
  - intros c Hc. exact (lookup_getitems _ _ _ c E Hc).
  - intros Hwf. unfold wf_frame. cbn [nrows cols].
    rewrite Forall_forall in *. intros cs Hcs.
    eapply getitem_length; eauto.
Qed.

Lemma getitems_total names d :
  (forall c, In c names -> in_columns c d = true) ->
  exists l, getitems names d = Some l.
Proof.
  induction names as [|c rest IH]; simpl; intros H; [eauto|].
  destruct (proj1 (in_columns_getitem c d) (H c (or_introl eq_refl))) as [s ->].
  destruct IH as [l ->]; eauto.
Qed.

Lemma getitem_tail n c d :
  getitem c (tail n d) = option_map (lastn n) (getitem c d).
Proof. apply (lookup_map_series (lastn n)). Qed.

Lemma columns_tail n d : columns (tail n d) = columns d.
Proof. unfold columns, tail. cbn [cols]. now rewrite map_map. Qed.

End Selections.

(** ** Forecasts under the contract *)

Section UnderContract.

Context {L : Libs} {PC : ProphetContract L}.

Lemma make_future_inv (m : Model) (p : nat) (future : DataFrame) :
  make_future_dataframe m p = Some future ->
  exists last,
    max_date (history_dates m) = Some last
    /\ future = frame_of_dates (history_dates m ++ next_days last p).
Proof.
  unfold make_future_dataframe, future_dates.
  destruct (max_date (history_dates m)) as [last|]; [|discriminate].
  simpl. intros [= <-]. eauto.
Qed.

(** The forecast of one SKU: one row per date of the history and per day of
    the horizon, in that order. *)
Lemma forecast_shape (m : Model) (sku : Scalar) (dates : list Z)
    (sample : World -> DataFrame * World) w :
  prophet_predict m (frame_of_dates dates) = Some sample ->
  let fc := setitem_scalar "sku" sku (fst (sample w)) in
  wf_frame fc
  /\ nrows fc = List.length dates
  /\ getitem "ds" fc = Some (map STime dates)
  /\ (forall c, In c display_cols -> in_columns c fc = true).
Proof.
  intros Hp fc.
  destruct (predict_shape m _ sample w Hp (wf_frame_of_dates dates)) as [Hwf Hn].
  pose proof (predict_dates m _ sample w Hp) as Hds.
  assert (Eds : getitem "ds" fc = Some (map STime dates)).
  { unfold fc, setitem_scalar. rewrite getitem_setitem_other by reflexivity.
    rewrite Hds. reflexivity. }
  repeat split.
  - now apply wf_setitem_scalar.
  - unfold fc. now rewrite nrows_setitem_scalar, Hn.
  - exact Eds.
  - intros c Hc. apply in_columns_getitem.
    destruct Hc as [<-|Hc]; [eauto|].
    pose proof (predict_columns m _ sample w c Hp Hc) as Hin.
    apply in_columns_getitem in Hin as [s Hs]. exists s.
    unfold fc, setitem_scalar. rewrite getitem_setitem_other; [exact Hs|].
    simpl in Hc. intuition (subst; reflexivity).
Qed.

(** C5: the table shown for one SKU.  When a pass of the loop completes, one
    table is shown: the columns ds, yhat, yhat_lower and yhat_upper of the
    forecast, cut to its last [periods] rows.  It has exactly [periods] rows,
    and they are the rows of the days after the history: the dates of the
    forecast are those of the history followed by the [periods] days after the
    latest of them, and the dates shown are these last ones. *)
Theorem displayed_table_is_forecast_tail
    (d : DataFrame) (cfg : Config) (sku : Scalar) (w : World)
    (fc : DataFrame) (l : list Event) (w' : World) :
  forecast_sku (Some d) cfg sku w = (Done fc, l, w') ->
  exists selected shown m last,
    select_columns display_cols fc = Some selected
    /\ shown = tail (periods cfg) selected
    /\ (forall t, In (StDataframe t) l <-> t = shown)
    /\ columns shown = display_cols
    /\ nrows shown = periods cfg
    /\ wf_frame shown
    /\ observations shown = lastn (periods cfg) (observations selected)
    /\ (forall c, In c display_cols ->
          exists col, getitem c fc = Some col
                      /\ getitem c shown = Some (lastn (periods cfg) col))
    /\ max_date (history_dates m) = Some last
    /\ getitem "ds" fc
       = Some (map STime (history_dates m ++ next_days last (periods cfg)))
    /\ getitem "ds" shown = Some (map STime (next_days last (periods cfg)))
    /\ Forall (fun t => (t <= last)%Z) (history_dates m)
    /\ Forall (fun t => (last < t)%Z) (next_days last (periods cfg)).
Proof.
  intros Hdone.
  apply forecast_sku_done in Hdone
    as (train & m & future & sample & selected & Ht & Hf & Hm & Hp & Hfc & Hw & Hs & Hl).
  apply make_future_inv in Hm as (last & Hlast & ->).
  destruct (forecast_shape m sku _ sample w Hp) as (Hwf & Hn & Hds & Hcols).
  rewrite <- Hfc in Hwf, Hn, Hds, Hcols.
  destruct (select_columns_spec _ _ _ Hs) as (Hc1 & Hc2 & Hc3 & Hc4).
  exists selected, (tail (periods cfg) selected), m, last.
  assert (Hget : forall c, In c display_cols ->
            exists col, getitem c fc = Some col
              /\ getitem c (tail (periods cfg) selected)
                 = Some (lastn (periods cfg) col)).
  { intros c Hc. destruct (proj1 (in_columns_getitem c fc) (Hcols c Hc)) as [col Hcol].
    exists col. split; [assumption|].
    now rewrite getitem_tail, (Hc3 c Hc), Hcol. }
  repeat split; auto.
  - subst l. intros Hin. simpl in Hin.
    repeat (destruct Hin as [Hin|Hin]; [try discriminate|]); [|contradiction].
    now injection Hin as <-.
  - intros ->. subst l. simpl. auto 10.
  - now rewrite columns_tail.
  - unfold tail. cbn [nrows]. rewrite Hc2, Hn, length_app, next_days_length. lia.
  - apply wf_tail. auto.
  - apply observations_tail. auto.
  - destruct (Hget "ds" (or_introl eq_refl)) as (col & Hcol & ->).
    rewrite Hds in Hcol. injection Hcol as <-.
    rewrite lastn_map. do 2 f_equal.
    rewrite <- (next_days_length last (periods cfg)) at 1. apply lastn_app.
  - now apply max_date_bound.
  - apply next_days_after.
Qed.

End UnderContract.

(** ** The loop and the export *)

Section Loop.

Context {L : Libs}.

Lemma bind_assoc {A B C : Type} (m : M A) (f : A -> M B) (g : B -> M C) w :
  bind (bind m f) g w = bind m (fun a => bind (f a) g) w.
Proof.
  unfold bind. destruct (m w) as [[[a| |e] l1] w1]; try reflexivity.
  destruct (f a w1) as [[[b| |e] l2] w2]; try reflexivity.
  simpl. destruct (g b w2) as [[o l3] w3]. simpl. now rewrite app_assoc.
Qed.

Lemma after_events_done {A : Type} l0 (r : Outcome A * list Event * World) a l w :
  after_events l0 r = (Done a, l, w) ->
  exists l1, r = (Done a, l1, w) /\ l = l0 ++ l1.
Proof. destruct r as [[o l1] w1]. simpl. intros [= -> <- ->]. eauto. Qed.

Lemma bind_done_inv {A B : Type} (m : M A) (k : A -> M B) w b l w' :
  bind m k w = (Done b, l, w') ->
  exists a l1 w1 l2,
    m w = (Done a, l1, w1) /\ k a w1 = (Done b, l2, w') /\ l = l1 ++ l2.
Proof.
  unfold bind. destruct (m w) as [[[a| |e] l1] w1]; try discriminate.
  intros H. apply after_events_done in H as (l2 & H & ->).
  exists a, l1, w1, l2. auto.
Qed.

Lemma forecast_loop_done df cfg skus acc w r l w' :
  forecast_loop df cfg skus acc w = (Done r, l, w') ->
  exists fcs, r = acc ++ fcs /\ loop_run df cfg skus w fcs l w'.
Proof.
  revert acc w l. induction skus as [|sku rest IH]; intros acc w l; simpl.
  - intros [= <- <- <-]. exists []. split; [now rewrite app_nil_r | constructor].
  - intros H. apply bind_done_inv in H as (fc & l1 & w1 & l2 & H1 & H2 & ->).
    apply IH in H2 as (fcs & -> & Hrun).
    exists (fc :: fcs). split; [now rewrite <- app_assoc | econstructor; eauto].
Qed.

Lemma loop_run_complete df cfg skus w fcs l w' :
  loop_run df cfg skus w fcs l w' ->
  forall acc, forecast_loop df cfg skus acc w = (Done (acc ++ fcs), l, w').
Proof.
  induction 1 as [w|sku rest w fc l1 w1 fcs l2 w2 H1 H2 IH]; intros acc; simpl.
  - now rewrite app_nil_r.
  - rewrite (bind_done _ _ _ _ _ _ H1), IH. simpl. now rewrite <- app_assoc.
Qed.

(** When every pass completes, so does the loop. *)
Lemma loop_run_total df cfg skus :
  (forall sku w, In sku skus ->
     exists fc l w', forecast_sku df cfg sku w = (Done fc, l, w')) ->
  forall w, exists fcs l w', loop_run df cfg skus w fcs l w'.
Proof.
  induction skus as [|sku rest IH]; intros H w.
  - exists [], [], w. constructor.
  - destruct (H sku w (or_introl eq_refl)) as (fc & l1 & w1 & H1).
    destruct (IH (fun s w0 Hs => H s w0 (or_intror Hs)) w1) as (fcs & l2 & w2 & H2).
    exists (fc :: fcs), (l1 ++ l2), w2. econstructor; eauto.
Qed.

(** One forecast per SKU, in the order of the SKUs. *)
Lemma loop_run_forecasts df cfg skus w fcs l w' :
  loop_run df cfg skus w fcs l w' ->
  Forall2 (fun sku fc => exists w0 l1 w1,
             forecast_sku df cfg sku w0 = (Done fc, l1, w1) /\ incl l1 l)
          skus fcs.
Proof.
  induction 1 as [w|sku rest w fc l1 w1 fcs l2 w2 H1 H2 IH]; constructor.
  - exists w, l1, w1. split; [assumption | apply incl_appl, incl_refl].
  - eapply Forall2_impl; [|exact IH]. simpl.
    intros s f (w0 & l0 & w3 & Hs & Hincl). exists w0, l0, w3.
    split; [assumption | now apply incl_appr].
Qed.

(** The loop offers no download. *)
Lemma loop_run_no_download d cfg skus w fcs l w' :
  loop_run (Some d) cfg skus w fcs l w' -> filter is_download l = [].
Proof.
  induction 1 as [w|sku rest w fc l1 w1 fcs l2 w2 H1 H2 IH]; [reflexivity|].
  rewrite filter_app, IH, app_nil_r.
  apply forecast_sku_done in H1
    as (train & m & future & sample & shown & _ & _ & _ & _ & _ & _ & _ & ->).
  reflexivity.
Qed.

(** What lines 118-129 evaluate to. *)
Lemma export_result (skus : list Scalar) (fcs : list DataFrame) w :
  export skus fcs w =
    match pd_concat fcs with
    | None => (Raised (ValueError "No objects to concatenate"),
               [StSubheader "📥 Descargar pronósticos de todos los SKUs"], w)
    | Some df_all =>
        match xlsx_write (sheet_cells df_all) with
        | None => (Raised (LibraryError "DataFrame.to_excel"),
                   [StSubheader "📥 Descargar pronósticos de todos los SKUs";
                    ToExcel df_all], w)
        | Some buf =>
            (Done (mkPage skus fcs df_all buf),
             [StSubheader "📥 Descargar pronósticos de todos los SKUs";
              ToExcel df_all;
              StDownloadButton "Descargar pronósticos (Excel)" buf XLSX_NAME XLSX_MIME;
              StSuccess "✅ Forecast generado para todos los SKUs."], w)
        end
    end.
Proof.
  unfold export. rewrite bind_emit.
  destruct (pd_concat fcs) as [df_all|]; [|reflexivity].
  rewrite bind_ret, bind_emit. unfold external.
  destruct (xlsx_write (sheet_cells df_all)); reflexivity.
Qed.

(** What lines 62-113 evaluate to on a table with the required columns. *)
Lemma forecast_all_result (d : DataFrame) (cfg : Config) (col : Series) w :
  (forall c, In c required_cols -> in_columns c d = true) ->
  getitem "sku" d = Some col ->
  forecast_all (Some d) cfg w =
    match unique col with
    | [] => (Raised (StreamlitAPIException
                       "The input argument to st.tabs must contain at least one tab label."),
             [StSubheader "📊 Pronósticos por SKU"], w)
    | _ :: _ =>
        after_events [StSubheader "📊 Pronósticos por SKU"; StTabs (unique col)]
          (bind (forecast_loop (Some d) cfg (unique col) [])
                (fun fcs => ret (unique col, fcs)) w)
    end.
Proof.
  intros Hcols Hsku. unfold forecast_all.
  rewrite (bind_done _ _ _ _ _ _ (validate_passes d required_cols w Hcols)).
  rewrite after_events_nil. unfold read_df. rewrite bind_ret.
  unfold item. rewrite Hsku, bind_ret, bind_emit.
  destruct (unique col) as [|s rest] eqn:Eu; [reflexivity|].
  unfold st_tabs. rewrite bind_emit, after_events_app. reflexivity.
Qed.

End Loop.

(** ** The whole page *)

Section WholePage.

Context {L : Libs} {PC : ProphetContract L}.

(** The forecast a completed pass returns. *)
Lemma forecast_sku_frame (d : DataFrame) (cfg : Config) (sku : Scalar) w fc l w' :
  forecast_sku (Some d) cfg sku w = (Done fc, l, w') ->
  wf_frame fc
  /\ getitem "sku" fc = Some (repeat sku (nrows fc))
  /\ (forall c, In c display_cols -> in_columns c fc = true)
  /\ exists train m last,
       outcome (training_frame d sku w) = Done train
       /\ prophet_fit (seasonality_mode cfg) train = Some m
       /\ max_date (history_dates m) = Some last
       /\ nrows fc = List.length (history_dates m) + periods cfg
       /\ getitem "ds" fc
          = Some (map STime (history_dates m ++ next_days last (periods cfg))).
Proof.
  intros Hdone.
  apply forecast_sku_done in Hdone
    as (train & m & future & sample & selected & Ht & Hf & Hm & Hp & -> & _ & _ & _).
  apply make_future_inv in Hm as (last & Hlast & ->).
  destruct (forecast_shape m sku _ sample w Hp) as (Hwf & Hn & Hds & Hcols).
  repeat split; auto.
  - rewrite nrows_setitem_scalar. apply getitem_setitem_scalar.
  - exists train, m, last. repeat split; auto.
    rewrite Hn, length_app, next_days_length. reflexivity.
Qed.

Lemma loop_run_frames (d : DataFrame) (cfg : Config) skus w fcs l w' :
  loop_run (Some d) cfg skus w fcs l w' ->
  Forall wf_frame fcs
  /\ Forall2 (fun sku fc => getitem "sku" fc = Some (repeat sku (nrows fc))) skus fcs.
Proof.
  induction 1 as [w|sku rest w fc l1 w1 fcs l2 w2 H1 H2 [IH1 IH2]].
  - split; constructor.
  - destruct (forecast_sku_frame _ _ _ _ _ _ _ H1) as (Hwf & Htag & _).
    split; constructor; auto.
Qed.

(** C3, amended: one forecast per SKU, and their concatenation is what is
    exported.  On a table with the three required columns and at least one
    row, when the pass of each SKU completes: the loop yields one forecast
    for each value of [unique], in that order, each carrying its SKU in every
    row; [unique] lists every key of the column sku once; the frame handed to
    the spreadsheet writer is the concatenation of the forecasts, whose rows
    are the rows of the forecasts in order, none lost and none repeated (each
    laid out on the columns of the result); and the page completes exactly
    when the writer accepts that sheet. *)
Theorem forecasts_are_concatenated
    (d : DataFrame) (cfg : Config) (w : World) (col : Series) :
  (forall c, In c required_cols -> in_columns c d = true) ->
  getitem "sku" d = Some col ->
  col <> [] ->
  (forall sku w0, In sku (unique col) ->
     exists fc l w1, forecast_sku (Some d) cfg sku w0 = (Done fc, l, w1)) ->
  exists fcs df_all l w',
    forecast_all (Some d) cfg w = (Done (unique col, fcs), l, w')
    /\ keys_distinct (unique col)
    /\ (forall v, In v col -> existsb (same_key v) (unique col) = true)
    /\ (forall v, In v (unique col) -> In v col)
    /\ Forall2 (fun sku fc => getitem "sku" fc = Some (repeat sku (nrows fc)))
               (unique col) fcs
    /\ pd_concat fcs = Some df_all
    /\ nrows df_all = list_sum (map nrows fcs)
    /\ observations df_all
       = flat_map (fun fc => observations (reindex (columns df_all) fc)) fcs
    /\ (forall c, in_columns c df_all = true ->
          getitem c df_all = Some (flat_map (col_or_nan c) fcs))
    /\ after_load (Some d) cfg w =
         after_events
           (l ++ [StSubheader "📥 Descargar pronósticos de todos los SKUs";
                  ToExcel df_all])
           match xlsx_write (sheet_cells df_all) with
           | Some buf =>
               (Done (mkPage (unique col) fcs df_all buf),
                [StDownloadButton "Descargar pronósticos (Excel)" buf
                                  XLSX_NAME XLSX_MIME;
                 StSuccess "✅ Forecast generado para todos los SKUs."], w')
           | None => (Raised (LibraryError "DataFrame.to_excel"), [], w')
           end.
Proof.
  intros Hcols Hsku Hne Hstep.
  destruct (loop_run_total (Some d) cfg (unique col) Hstep w) as (fcs & l1 & w' & Hrun).
  destruct (loop_run_frames _ _ _ _ _ _ _ Hrun) as [Hwf Htag].
  destruct (unique_spec col) as (Hu1 & Hu2 & Hu3).
  assert (Hfcs : exists fc rest, fcs = fc :: rest).
  { destruct (unique col) as [|s rest] eqn:Eu.
    - exfalso. apply Hne. now apply unique_nil_inv.
    - inversion Htag; subst. eauto. }
  destruct Hfcs as (fc0 & rest0 & Efcs).
  assert (Hcat : exists df_all, pd_concat fcs = Some df_all)
    by (subst fcs; simpl; eauto).
  destruct Hcat as [df_all Hcat].
  assert (Hall : forecast_all (Some d) cfg w =
            (Done (unique col, fcs),
             [StSubheader "📊 Pronósticos por SKU"; StTabs (unique col)] ++ l1, w')).
  { rewrite (forecast_all_result d cfg col w Hcols Hsku).
    destruct (unique col) as [|s rest] eqn:Eu.
    - exfalso. apply Hne. now apply unique_nil_inv.
    - rewrite (bind_done _ _ _ _ _ _ (loop_run_complete _ _ _ _ _ _ _ Hrun [])).
      simpl. now rewrite app_nil_r. }
  exists fcs, df_all,
    ([StSubheader "📊 Pronósticos por SKU"; StTabs (unique col)] ++ l1), w'.
  destruct (wf_concat _ _ Hwf Hcat) as [_ Hn].
  repeat split; auto.
  - now apply observations_concat.
  - intros c Hc. now apply getitem_concat.
  - unfold after_load. rewrite (bind_done _ _ _ _ _ _ Hall). cbn [fst snd].
    rewrite export_result, Hcat.
    destruct (xlsx_write (sheet_cells df_all)); simpl; now rewrite <- app_assoc.
Qed.

End WholePage.

(** ** Two executions on the same inputs *)

Section TwoRenders.

Context {L : Libs} {PC : ProphetContract L}.

Lemma outcome_bind {A B : Type} (m : M A) (k : A -> M B) w :
  outcome (bind m k w) =
    match m w with
    | (Done a, _, w1) => outcome (k a w1)
    | (Stopped, _, _) => Stopped
    | (Raised e, _, _) => Raised e
    end.
Proof.
  unfold bind. destruct (m w) as [[[a| |e] l1] w1]; try reflexivity.
  apply outcome_after_events.
Qed.

(** The loader does not touch the state outside and does not depend on it. *)
Lemma load_pure (up : option UploadedFile) w w0 :
  load up w = (outcome (load up w0), events (load up w0), w).
Proof.
  destruct up as [f|];
    [|rewrite ?load_example; destruct (pd_read_csv_path _); reflexivity].
  destruct (too_large f) eqn:Hs.
  - now rewrite !load_rejected.
  - rewrite !load_accepted by assumption.
    destruct (endswith (name f) ".csv");
      [destruct (pd_read_csv f) | destruct (pd_read_excel f)]; reflexivity.
Qed.

Lemma training_frame_outcome (d : DataFrame) (sku : Scalar) w1 w2 :
  outcome (training_frame d sku w1) = outcome (training_frame d sku w2).
Proof. now rewrite (training_frame_pure d sku w1 w2). Qed.

(** Under the contract the selection of line 112 finds its columns. *)
Lemma display_selection (m : Model) (sku : Scalar) (dates : list Z)
    (sample : World -> DataFrame * World) w :
  prophet_predict m (frame_of_dates dates) = Some sample ->
  exists shown,
    select_columns display_cols (setitem_scalar "sku" sku (fst (sample w)))
    = Some shown.
Proof.
  intros Hp. destruct (forecast_shape m sku dates sample w Hp) as (_ & _ & _ & Hc).
  destruct (getitems_total display_cols _ Hc) as [l Hl].
  unfold select_columns. rewrite Hl. eauto.
Qed.

(** One pass of the loop from two states outside. *)
Lemma forecast_sku_two_worlds (d : DataFrame) (cfg : Config) (sku : Scalar) w1 w2 :
  same_end same_point_forecast
           (outcome (forecast_sku (Some d) cfg sku w1))
           (outcome (forecast_sku (Some d) cfg sku w2)).
Proof.
  rewrite !forecast_sku_result.
  rewrite (training_frame_outcome d sku w2 w1).
  destruct (outcome (training_frame d sku w1)) as [train| |e]; try exact I;
    [|reflexivity].
  cbv zeta.
  destruct (prophet_fit (seasonality_mode cfg) train) as [m|]; [|reflexivity].
  destruct (make_future_dataframe m (periods cfg)) as [future|] eqn:Em;
    [|reflexivity].
  apply make_future_inv in Em as (last & _ & ->).
  destruct (prophet_predict m _) as [sample|] eqn:Ep; [|reflexivity].
  destruct (display_selection m sku _ sample w1 Ep) as [s1 ->].
  destruct (display_selection m sku _ sample w2 Ep) as [s2 ->].
  unfold outcome. cbn [fst same_end].
  unfold same_point_forecast, setitem_scalar.
  rewrite !getitem_setitem_other by reflexivity.
  split.
  - now rewrite !(predict_dates m _ sample _ Ep).
  - apply (predict_point m _ sample w1 w2 Ep).
Qed.

Lemma forecast_loop_two_worlds (d : DataFrame) (cfg : Config) skus :
  forall acc1 acc2 w1 w2,
    Forall2 same_point_forecast acc1 acc2 ->
    same_end (Forall2 same_point_forecast)
             (outcome (forecast_loop (Some d) cfg skus acc1 w1))
             (outcome (forecast_loop (Some d) cfg skus acc2 w2)).
Proof.
  induction skus as [|sku rest IH]; intros acc1 acc2 w1 w2 Hacc; simpl.
  - exact Hacc.
  - rewrite !outcome_bind.
    pose proof (forecast_sku_two_worlds d cfg sku w1 w2) as Hs.
    destruct (forecast_sku (Some d) cfg sku w1) as [[[f1| |e1] l1] v1];
      destruct (forecast_sku (Some d) cfg sku w2) as [[[f2| |e2] l2] v2];
      unfold outcome in Hs; simpl in Hs; try contradiction; auto.
    apply IH. apply Forall2_app; [assumption | now constructor].
Qed.

Lemma forecast_all_two_worlds (df : option DataFrame) (cfg : Config) w1 w2 :
  same_end same_forecasts
           (outcome (forecast_all df cfg w1)) (outcome (forecast_all df cfg w2)).
Proof.
  destruct df as [d|]; [|reflexivity].
  destruct (first_missing d) as [c|] eqn:Ef.
  - unfold forecast_all.
    rewrite !(bind_stopped _ _ _ _ _ (validate_stops d required_cols c _ Ef)).
    exact I.
  - assert (Hcols : forall c, In c required_cols -> in_columns c d = true).
    { intros c Hc. pose proof (find_none _ _ Ef c Hc) as H. simpl in H.
      now apply negb_false_iff in H. }
    destruct (proj1 (in_columns_getitem "sku" d) (Hcols "sku" (or_introl eq_refl)))
      as [col Hsku].
    rewrite !(forecast_all_result d cfg col _ Hcols Hsku).
    destruct (unique col) as [|s rest]; [reflexivity|].
    rewrite !outcome_after_events, !outcome_bind.
    pose proof (forecast_loop_two_worlds d cfg (s :: rest) [] [] w1 w2
                  (Forall2_nil _)) as Hl.
    destruct (forecast_loop (Some d) cfg (s :: rest) [] w1) as [[[f1| |e1] l1] v1];
      destruct (forecast_loop (Some d) cfg (s :: rest) [] w2) as [[[f2| |e2] l2] v2];
      unfold outcome in Hl; simpl in Hl; try contradiction; auto.
    unfold outcome, ret. simpl. split; [reflexivity | assumption].
Qed.

(** C9: two executions on the same upload and the same sidebar values, from
    any two states outside.  The validation and the forecasting end the same
    way in both; when they complete, both have the same SKUs and, SKU by SKU,
    forecasts with the same dates and the same point estimates.  So two
    executions that reach the last line show and export forecasts that agree
    on these two columns.  (It rests on the contract: Prophet's point estimate
    does not depend on the state outside.) *)
Theorem renders_agree_on_dates_and_estimates
    (up : option UploadedFile) (cfg : Config) (w1 w2 : World) :
  same_end same_forecasts
           (outcome (bind (load up) (fun df => forecast_all df cfg) w1))
           (outcome (bind (load up) (fun df => forecast_all df cfg) w2))
  /\ (forall p1 p2,
        outcome (app up cfg w1) = Done p1 ->
        outcome (app up cfg w2) = Done p2 ->
        skus_of p1 = skus_of p2
        /\ Forall2 same_point_forecast (all_forecasts_of p1) (all_forecasts_of p2)).
Proof.
  assert (Hstage : same_end same_forecasts
           (outcome (bind (load up) (fun df => forecast_all df cfg) w1))
           (outcome (bind (load up) (fun df => forecast_all df cfg) w2))).
  { rewrite !outcome_bind. rewrite (load_pure up w1 w2), (load_pure up w2 w2).
    destruct (outcome (load up w2)) as [df| |e]; try exact I; [|reflexivity].
    apply forecast_all_two_worlds. }
  split; [exact Hstage|].
  intros p1 p2 H1 H2.
  assert (Happ : forall w, app up cfg w =
            bind (bind (load up) (fun df => forecast_all df cfg))
                 (fun r => export (fst r) (snd r)) w).
  { intros w. now rewrite bind_assoc. }
  rewrite Happ, outcome_bind in H1, H2.
  destruct (bind (load up) (fun df => forecast_all df cfg) w1)
    as [[[r1| |e1] l1] v1]; try discriminate.
  destruct (bind (load up) (fun df => forecast_all df cfg) w2)
    as [[[r2| |e2] l2] v2]; try discriminate.
  unfold outcome in Hstage. simpl in Hstage. destruct Hstage as [Hs Hf].
  rewrite export_result in H1, H2.
  destruct (pd_concat (snd r1)); [|discriminate].
  destruct (xlsx_write _); [|discriminate].
  destruct (pd_concat (snd r2)); [|discriminate].
  destruct (xlsx_write _); [|discriminate].
  unfold outcome in H1, H2. simpl in H1, H2.
  injection H1 as <-. injection H2 as <-. simpl. auto.
Qed.

End TwoRenders.

(** ** The exported spreadsheet *)

Section Spreadsheet.

Context {L : Libs} {PC : ProphetContract L}.

Lemma Forall2_impl_in {A B : Type} (R Q : A -> B -> Prop) l1 l2 :
  Forall2 R l1 l2 ->
  (forall a b, In a l1 -> In b l2 -> R a b -> Q a b) ->
  Forall2 Q l1 l2.
Proof.
  induction 1 as [|a b l1 l2 Hab Hrest IH]; intros H; constructor.
  - apply H; simpl; auto.
  - apply IH. intros a0 b0 Ha Hb. apply H; simpl; auto.
Qed.

(** An execution that reaches the last line, taken apart. *)
Lemma app_done (up : option UploadedFile) (cfg : Config) w page l w' :
  app up cfg w = (Done page, l, w') ->
  exists d l0 col fcs l1 df_all buf,
    load up w = (Done (Some d), l0, w)
    /\ (forall c, In c required_cols -> in_columns c d = true)
    /\ getitem "sku" d = Some col
    /\ loop_run (Some d) cfg (unique col) w fcs l1 w'
    /\ pd_concat fcs = Some df_all
    /\ xlsx_write (sheet_cells df_all) = Some buf
    /\ page = mkPage (unique col) fcs df_all buf
    /\ l = l0 ++ [StSubheader "📊 Pronósticos por SKU"; StTabs (unique col)]
              ++ l1
              ++ [StSubheader "📥 Descargar pronósticos de todos los SKUs";
                  ToExcel df_all;
                  StDownloadButton "Descargar pronósticos (Excel)" buf
                                   XLSX_NAME XLSX_MIME;
                  StSuccess "✅ Forecast generado para todos los SKUs."].
Proof.
  unfold app. intros H.
  apply bind_done_inv in H as (df & l0 & w0 & l' & Hload & Hafter & ->).
  pose proof (load_pure up w w) as Hp. rewrite Hload in Hp.
  unfold outcome, events in Hp. simpl in Hp.
  assert (w0 = w) by congruence. subst w0. clear Hp.
  destruct df as [d|]; [|rewrite after_load_unbound in Hafter; discriminate].
  unfold after_load in Hafter.
  apply bind_done_inv in Hafter as (r & la & wa & lb & Hall & Hexp & ->).
  destruct (first_missing d) as [c|] eqn:Ef.
  { unfold forecast_all in Hall.
    rewrite (bind_stopped _ _ _ _ _ (validate_stops d required_cols c _ Ef)) in Hall.
    discriminate. }
  assert (Hcols : forall c, In c required_cols -> in_columns c d = true).
  { intros c Hc. pose proof (find_none _ _ Ef c Hc) as H. simpl in H.
    now apply negb_false_iff in H. }
  destruct (proj1 (in_columns_getitem "sku" d) (Hcols "sku" (or_introl eq_refl)))
    as [col Hsku].
  rewrite (forecast_all_result d cfg col _ Hcols Hsku) in Hall.
  destruct (unique col) as [|s rest] eqn:Eu; [discriminate|].
  apply after_events_done in Hall as (l2 & Hall & ->).
  apply bind_done_inv in Hall as (fcs0 & l1 & w1 & l3 & Hloop & Hret & ->).
  unfold ret in Hret. injection Hret as <- <- <-.
  apply forecast_loop_done in Hloop as (fcs & -> & Hrun). simpl in Hrun.
  rewrite export_result in Hexp. cbn [fst snd] in Hexp.
  change ([] ++ fcs) with fcs in Hexp.
  destruct (pd_concat fcs) as [df_all|] eqn:Ec; [|discriminate].
  destruct (xlsx_write (sheet_cells df_all)) as [buf|] eqn:Ex; [|discriminate].
  injection Hexp as <- <- <-.
  exists d, l0, col, fcs, l1, df_all, buf. rewrite Eu.
  repeat split; auto.
  rewrite app_nil_r. reflexivity.
Qed.

Lemma load_no_download (up : option UploadedFile) w :
  filter is_download (events (load up w)) = [].
Proof.
  destruct up as [f|];
    [|rewrite ?load_example; destruct (pd_read_csv_path _); reflexivity].
  destruct (too_large f) eqn:Hs.
  - now rewrite load_rejected.
  - rewrite load_accepted by assumption.
    destruct (endswith (name f) ".csv");
      [destruct (pd_read_csv f) | destruct (pd_read_excel f)]; reflexivity.
Qed.

Lemma in_columns_In c d : in_columns c d = true -> In c (columns d).
Proof.
  unfold in_columns. intros H. apply existsb_exists in H as (k & Hk & E).
  apply String.eqb_eq in E. now subst k.
Qed.

(** C7: the export.  An execution that reaches the last line has offered
    exactly one download: the bytes the writer made of the sheet of
    [df_all_forecast], under the name forecast_all_skus.xlsx and the
    spreadsheet MIME type.  That frame is the concatenation of the forecasts;
    the header of the sheet has the columns ds, yhat, yhat_lower, yhat_upper
    and sku; and for every SKU and every row of its forecast, that is for every
    date of its history and every day of the horizon, the sheet has a row with
    that date, that SKU and the three estimates of that row. *)
Theorem export_is_one_spreadsheet
    (up : option UploadedFile) (cfg : Config) (w : World)
    (page : Page) (l : list Event) (w' : World) :
  app up cfg w = (Done page, l, w') ->
  pd_concat (all_forecasts_of page) = Some (df_all_forecast_of page)
  /\ xlsx_write (sheet_cells (df_all_forecast_of page)) = Some (excel_buffer_of page)
  /\ filter is_download l
     = [StDownloadButton "Descargar pronósticos (Excel)" (excel_buffer_of page)
                         XLSX_NAME XLSX_MIME]
  /\ (forall c, In c ["ds"; "yhat"; "yhat_lower"; "yhat_upper"; "sku"] ->
        In (SStr c) (hd [] (sheet_cells (df_all_forecast_of page))))
  /\ Forall2
       (fun sku fc =>
          exists m last,
            max_date (history_dates m) = Some last
            /\ nrows fc = List.length (history_dates m) + periods cfg
            /\ forall i, i < nrows fc ->
                 exists row,
                   In row (tl (sheet_cells (df_all_forecast_of page)))
                   /\ value_at "ds" (df_all_forecast_of page) row
                      = STime (nth i (history_dates m
                                      ++ next_days last (periods cfg)) 0%Z)
                   /\ value_at "sku" (df_all_forecast_of page) row = sku
                   /\ forall c, In c ["yhat"; "yhat_lower"; "yhat_upper"] ->
                        value_at c (df_all_forecast_of page) row
                        = nth i (col_or_nan c fc) SNaN)
       (skus_of page) (all_forecasts_of page).
Proof.
  intros Happ.
  apply app_done in Happ
    as (d & l0 & col & fcs & l1 & df_all & buf & Hload & Hcols & Hsku & Hrun
        & Hcat & Hx & -> & ->).
  cbn [skus_of all_forecasts_of df_all_forecast_of excel_buffer_of].
  destruct (loop_run_frames _ _ _ _ _ _ _ Hrun) as [Hwf _].
  assert (Hin5 : forall fc c, In fc fcs ->
            in_columns c fc = true -> in_columns c df_all = true).
  { intros fc c Hfc Hc. rewrite (in_columns_concat _ _ c Hcat).
    apply existsb_exists. eauto. }
  assert (Hpairs := loop_run_forecasts _ _ _ _ _ _ _ Hrun).
  split; [assumption|]. split; [assumption|]. split; [|split].
  - rewrite !filter_app.
    pose proof (load_no_download up w) as Hl. rewrite Hload in Hl.
    unfold events in Hl. simpl in Hl. rewrite Hl.
    now rewrite (loop_run_no_download _ _ _ _ _ _ _ Hrun).
  - intros c Hc. simpl. apply in_map. apply in_columns_In.
    destruct fcs as [|fc rest]; [discriminate|].
    inversion Hpairs as [|s0 f0 ss fs (w0 & la & wa & Hs & _) Hrest]; subst.
    destruct (forecast_sku_frame _ _ _ _ _ _ _ Hs) as (_ & Htag & Hdisp & _).
    apply (Hin5 fc c (or_introl eq_refl)).
    simpl in Hc. destruct Hc as [<-|[<-|[<-|[<-|[<-|[]]]]]];
      try (apply Hdisp; simpl; tauto).
    apply in_columns_getitem. eauto.
  - eapply Forall2_impl_in; [exact Hpairs|].
    intros sku fc _ Hfc (w0 & la & wa & Hs & _).
    destruct (forecast_sku_frame _ _ _ _ _ _ _ Hs)
      as (Hwfc & Htag & Hdisp & train & m & last & _ & _ & Hlast & Hn & Hds).
    exists m, last. split; [assumption|]. split; [assumption|].
    intros i Hi.
    destruct (row_in_concat fcs df_all fc i Hwf Hcat Hfc Hi) as (row & Hrow & Hval).
    exists row. split; [simpl; assumption|].
    assert (Hdisp' : forall c, In c display_cols -> in_columns c df_all = true)
      by (intros c Hc; apply (Hin5 fc c Hfc); auto).
    split; [|split].
    + rewrite (Hval "ds") by (apply Hdisp'; simpl; tauto).
      unfold col_or_nan. rewrite Hds.
      rewrite (nth_indep _ SNaN (STime 0)).
      * apply (map_nth STime).
      * rewrite length_map, length_app, next_days_length. lia.
    + rewrite (Hval "sku").
      * unfold col_or_nan. rewrite Htag. now apply nth_repeat_lt.
      * apply (Hin5 fc "sku" Hfc). apply in_columns_getitem. eauto.
    + intros c Hc. apply Hval. apply Hdisp'. simpl in *. tauto.
Qed.

End Spreadsheet.

(** ** The dates a model keeps *)

Section SortedDates.

Lemma insert_sorted_In x z l :
  In z (insert_sorted x l) <-> z = x \/ In z l.
Proof.
  induction l as [|y rest IH]; simpl.
  - intuition.
  - destruct (x <? y)%Z; [simpl; intuition|].
    destruct (x =? y)%Z eqn:E.
    + apply Z.eqb_eq in E. subst y. simpl. intuition.
    + simpl. rewrite IH. intuition.
Qed.

Lemma insert_sorted_length x l :
  ~ In x l -> List.length (insert_sorted x l) = S (List.length l).
Proof.
  induction l as [|y rest IH]; simpl; intros Hn; [reflexivity|].
  destruct (x <? y)%Z; [reflexivity|].
  destruct (x =? y)%Z eqn:E.
  - apply Z.eqb_eq in E. subst y. exfalso. auto.
  - simpl. rewrite IH; auto.
Qed.

Lemma sort_unique_In z l : In z (sort_unique l) <-> In z l.
Proof.
  unfold sort_unique. induction l as [|x rest IH]; simpl; [tauto|].
  rewrite insert_sorted_In, IH. intuition.
Qed.

(** Distinct dates are all kept. *)
Lemma sort_unique_length l :
  NoDup l -> List.length (sort_unique l) = List.length l.
Proof.
  induction 1 as [|x rest Hx Hrest IH]; [reflexivity|].
  change (sort_unique (x :: rest)) with (insert_sorted x (sort_unique rest)).
  rewrite insert_sorted_length, IH; [reflexivity|].
  now rewrite sort_unique_In.
Qed.

Lemma max_date_some l : l <> [] -> exists last, max_date l = Some last.
Proof. destruct l; [congruence | simpl; eauto]. Qed.

End SortedDates.

(** ** A scenario: two SKUs, 400 days each *)

Section Scenario.

Context {L : Libs} {PC : ProphetContract L}.

(** The training frame of a SKU whose dates convert. *)
Lemma training_frame_of_fechas (d : DataFrame) (sku : Scalar) (fe ds : Series) w :
  in_columns "demanda_real" d = true ->
  fechas d sku = Some fe ->
  pd_to_datetime fe = Some ds ->
  exists train,
    outcome (training_frame d sku w) = Done train
    /\ getitem "ds" train = Some ds.
Proof.
  unfold fechas. intros Hy Hfe Hds.
  rewrite training_frame_result.
  destruct (getitem "sku" d) as [col|]; [|discriminate].
  rewrite prepare_result, Hfe, Hds.
  set (df_sku := filter_rows (map (fun v => scalar_eq v sku) col) d) in *.
  assert (Hin : in_columns "demanda_real" df_sku = true).
  { unfold in_columns, df_sku. now rewrite columns_filter_rows. }
  apply in_columns_getitem in Hin as [y Hget].
  rewrite getitem_setitem_other by reflexivity. rewrite Hget.
  eexists. split; reflexivity.
Qed.

(** A pass completes when its training frame is built, the fit succeeds on a
    history that is not empty, and the prediction succeeds. *)
Lemma forecast_sku_completes (d : DataFrame) (cfg : Config) (sku : Scalar)
    (train : DataFrame) (m : Model) w :
  outcome (training_frame d sku w) = Done train ->
  prophet_fit (seasonality_mode cfg) train = Some m ->
  history_dates m <> [] ->
  (forall future, make_future_dataframe m (periods cfg) = Some future ->
     exists sample, prophet_predict m future = Some sample) ->
  exists fc l w', forecast_sku (Some d) cfg sku w = (Done fc, l, w').
Proof.
  intros Ht Hf Hh Hp. rewrite forecast_sku_result, Ht. cbv zeta. rewrite Hf.
  destruct (max_date_some _ Hh) as [last Hlast].
  assert (Hm : make_future_dataframe m (periods cfg)
               = Some (frame_of_dates (history_dates m
                                        ++ next_days last (periods cfg)))).
  { unfold make_future_dataframe, future_dates. now rewrite Hlast. }
  rewrite Hm. destruct (Hp _ Hm) as [sample Hs]. rewrite Hs.
  destruct (display_selection m sku _ sample w Hs) as [shown ->].
  eauto.
Qed.

(** The forecast of a SKU observed on [n] distinct dates has [n] rows and one
    more per day of the horizon. *)
Lemma forecast_rows (d : DataFrame) (cfg : Config) (sku : Scalar)
    (fe : Series) (ts : list Z) w fc l w' :
  forecast_sku (Some d) cfg sku w = (Done fc, l, w') ->
  fechas d sku = Some fe ->
  pd_to_datetime fe = Some (map STime ts) ->
  NoDup ts ->
  nrows fc = List.length ts + periods cfg.
Proof.
  intros Hdone Hfe Hds Hnd.
  destruct (forecast_sku_frame _ _ _ _ _ _ _ Hdone)
    as (_ & _ & _ & train & m & last & Ht & Hf & _ & Hn & _).
  apply training_frame_done in Ht as (col & fecha & ds & y & Hcol & Hfecha & Hconv & ->).
  unfold fechas in Hfe. rewrite Hcol, Hfecha in Hfe. injection Hfe as ->.
  rewrite Hds in Hconv. injection Hconv as <-.
  rewrite (fit_history _ _ m ts Hf eq_refl) in Hn.
  now rewrite sort_unique_length in Hn.
Qed.

(** Lines 62-129 once the loop has run to its end. *)
Lemma after_load_run (d : DataFrame) (cfg : Config) (col : Series)
    w fcs l1 w' df_all :
  (forall c, In c required_cols -> in_columns c d = true) ->
  getitem "sku" d = Some col ->
  unique col <> [] ->
  loop_run (Some d) cfg (unique col) w fcs l1 w' ->
  pd_concat fcs = Some df_all ->
  after_load (Some d) cfg w =
    after_events
      ([StSubheader "📊 Pronósticos por SKU"; StTabs (unique col)] ++ l1
       ++ [StSubheader "📥 Descargar pronósticos de todos los SKUs";
           ToExcel df_all])
      match xlsx_write (sheet_cells df_all) with
      | Some buf =>
          (Done (mkPage (unique col) fcs df_all buf),
           [StDownloadButton "Descargar pronósticos (Excel)" buf XLSX_NAME XLSX_MIME;
            StSuccess "✅ Forecast generado para todos los SKUs."], w')
      | None => (Raised (LibraryError "DataFrame.to_excel"), [], w')
      end.
Proof.
  intros Hcols Hsku Hne Hrun Hcat.
  assert (Hall : forecast_all (Some d) cfg w =
            (Done (unique col, fcs),
             [StSubheader "📊 Pronósticos por SKU"; StTabs (unique col)] ++ l1, w')).
  { rewrite (forecast_all_result d cfg col w Hcols Hsku).
    destruct (unique col) as [|s rest] eqn:Eu; [congruence|].
    rewrite (bind_done _ _ _ _ _ _ (loop_run_complete _ _ _ _ _ _ _ Hrun [])).
    simpl. now rewrite app_nil_r. }
  unfold after_load. rewrite (bind_done _ _ _ _ _ _ Hall). cbn [fst snd].
  rewrite export_result, Hcat.
  destruct (xlsx_write (sheet_cells df_all)); simpl; now rewrite <- app_assoc.
Qed.

(** C6: the scenario of two SKUs with 400 daily observations each, a horizon
    of 30 days and the additive mode.  The column sku holds two keys [a] and
    [b]; the dates of each convert to 400 distinct timestamps; the fit and the
    prediction of each succeed, and the writer accepts a sheet of 861 rows.
    Then the page completes with two forecasts of 430 rows each, and the sheet
    it writes and offers for download has the header row and 860 data rows. *)
Theorem two_skus_of_400_days
    (up : option UploadedFile) (w : World) (l0 : list Event)
    (d : DataFrame) (a b : Scalar) (col fa fb : Series) (ta tb : list Z) :
  load up w = (Done (Some d), l0, w) ->
  (forall c, In c required_cols -> in_columns c d = true) ->
  getitem "sku" d = Some col ->
  unique col = [a; b] ->
  fechas d a = Some fa -> pd_to_datetime fa = Some (map STime ta) ->
  NoDup ta -> List.length ta = 400 ->
  fechas d b = Some fb -> pd_to_datetime fb = Some (map STime tb) ->
  NoDup tb -> List.length tb = 400 ->
  (forall sku train, In sku [a; b] ->
     outcome (training_frame d sku w) = Done train ->
     exists m, prophet_fit additive train = Some m
               /\ forall future, make_future_dataframe m 30 = Some future ->
                    exists sample, prophet_predict m future = Some sample) ->
  (forall sheet : Sheet, List.length sheet = 861 ->
     exists buf, xlsx_write sheet = Some buf) ->
  exists page l w',
    app up (mkConfig 30 additive) w = (Done page, l, w')
    /\ skus_of page = [a; b]
    /\ map nrows (all_forecasts_of page) = [430; 430]
    /\ pd_concat (all_forecasts_of page) = Some (df_all_forecast_of page)
    /\ nrows (df_all_forecast_of page) = 860
    /\ hd [] (sheet_cells (df_all_forecast_of page))
       = map SStr (columns (df_all_forecast_of page))
    /\ List.length (tl (sheet_cells (df_all_forecast_of page))) = 860
    /\ xlsx_write (sheet_cells (df_all_forecast_of page)) = Some (excel_buffer_of page)
    /\ In (StDownloadButton "Descargar pronósticos (Excel)" (excel_buffer_of page)
                            XLSX_NAME XLSX_MIME) l.
Proof.
  intros Hload Hcols Hsku Hu Hfa Hca Hna Hla Hfb Hcb Hnb Hlb Hfit Hx.
  set (cfg := mkConfig 30 additive).
  assert (Hy : in_columns "demanda_real" d = true)
    by (apply Hcols; simpl; tauto).
  assert (Hstep : forall sku fe ts w0,
            In sku [a; b] -> fechas d sku = Some fe ->
            pd_to_datetime fe = Some (map STime ts) ->
            NoDup ts -> List.length ts = 400 ->
            exists fc l w1, forecast_sku (Some d) cfg sku w0 = (Done fc, l, w1)).
  { intros sku fe ts w0 Hin Hfe Hc Hn Hl.
    destruct (training_frame_of_fechas d sku fe _ w0 Hy Hfe Hc) as (train & Ht & Hds).
    rewrite (training_frame_outcome d sku w0 w) in Ht.
    destruct (Hfit sku train Hin Ht) as (m & Hm & Hp).
    rewrite (training_frame_outcome d sku w w0) in Ht.
    apply (forecast_sku_completes d cfg sku train m w0 Ht Hm); [|exact Hp].
    rewrite (fit_history _ _ m ts Hm Hds). intros E.
    apply (f_equal (@List.length Z)) in E.
    rewrite sort_unique_length in E by assumption. simpl in E. lia. }
  destruct (Hstep a fa ta w (or_introl eq_refl) Hfa Hca Hna Hla) as (fca & la & wa & Ha).
  destruct (Hstep b fb tb wa (or_intror (or_introl eq_refl)) Hfb Hcb Hnb Hlb)
    as (fcb & lb & wb & Hb).
  assert (Hrun : loop_run (Some d) cfg (unique col) w [fca; fcb] (la ++ lb ++ []) wb).
  { rewrite Hu. repeat (econstructor; eauto). }
  pose proof (forecast_rows _ _ _ _ _ _ _ _ _ Ha Hfa Hca Hna) as Hra.
  pose proof (forecast_rows _ _ _ _ _ _ _ _ _ Hb Hfb Hcb Hnb) as Hrb.
  rewrite Hla in Hra. rewrite Hlb in Hrb. cbn [periods cfg] in Hra, Hrb.
  destruct (pd_concat [fca; fcb]) as [df_all|] eqn:Hcat; [|discriminate].
  assert (Hn : nrows df_all = 860).
  { injection Hcat as <-. cbn [nrows map list_sum]. rewrite Hra, Hrb. reflexivity. }
  assert (Hsheet : List.length (sheet_cells df_all) = 861).
  { unfold sheet_cells. cbn [List.length]. now rewrite observations_length, Hn. }
  destruct (Hx _ Hsheet) as [buf Hbuf].
  assert (Hne : unique col <> []) by (rewrite Hu; discriminate).
  pose proof (after_load_run d cfg col w _ _ _ df_all Hcols Hsku Hne Hrun Hcat) as Hafter.
  rewrite Hbuf in Hafter. cbn [after_events] in Hafter.
  eexists _, _, _. split.
  { unfold app. rewrite (bind_done _ _ _ _ _ _ Hload). fold cfg.
    rewrite Hafter. reflexivity. }
  cbn [skus_of all_forecasts_of df_all_forecast_of excel_buffer_of].
  repeat split; auto.
  - cbn [map]. now rewrite Hra, Hrb.
  - rewrite !in_app_iff. right. right. simpl. tauto.
Qed.

End Scenario.

(** ** No upload *)

Section NoUpload.

Context {L : Libs}.

(** Every fit of the loop is on the training frame of one of its SKUs. *)
Lemma loop_run_fits (d : DataFrame) (cfg : Config) skus w fcs l w' mode train :
  loop_run (Some d) cfg skus w fcs l w' ->
  In (ProphetFit mode train) l ->
  mode = seasonality_mode cfg
  /\ exists sku, In sku skus /\ outcome (training_frame d sku w) = Done train.
Proof.
  induction 1 as [w|sku rest w fc l1 w1 fcs l2 w2 H1 H2 IH]; [contradiction|].
  intros Hin. apply in_app_or in Hin as [Hin|Hin].
  - apply forecast_sku_done in H1
      as (t & m & future & sample & shown & Ht & _ & _ & _ & _ & _ & _ & ->).
    simpl in Hin.
    repeat (destruct Hin as [Hin|Hin]; [try discriminate|]); [|contradiction].
    injection Hin as <- <-. split; [reflexivity|].
    exists sku. split; [simpl; auto | exact Ht].
  - destruct (IH Hin) as (Hm & s & Hs & Ht). split; [assumption|].
    exists s. split; [simpl; auto|].
    now rewrite (training_frame_outcome d s w w1).
Qed.

(** C8, amended: no upload.  When the bundled file can be read, the loader
    makes no size test and calls no reader of uploads: it reads the bundled
    file, shows the info notification and binds [df] to its table, whatever
    the state outside.  The rest of the page then runs on that table: the
    validation is on its columns, so a table that lacks one stops the page
    with the error naming it; and in an execution that reaches the last line
    the tabs are the distinct SKUs of that table, every fit is on the training
    frame of that table for one of these SKUs, and the exported frame is the
    concatenation of the forecasts. *)
Theorem no_upload_runs_on_bundled_table
    (d : DataFrame) (cfg : Config) (w : World) :
  pd_read_csv_path "data/datos_grupasa.csv" = Some d ->
  load None w =
    (Done (Some d),
     [ReadCsvPath "data/datos_grupasa.csv";
      StInfo "Usando dataset sintético de ejemplo."], w)
  /\ app None cfg w =
       after_events [ReadCsvPath "data/datos_grupasa.csv";
                     StInfo "Usando dataset sintético de ejemplo."]
                    (after_load (Some d) cfg w)
  /\ (forall c, first_missing d = Some c ->
        app None cfg w =
          (Stopped,
           [ReadCsvPath "data/datos_grupasa.csv";
            StInfo "Usando dataset sintético de ejemplo.";
            StError (ErrMissingColumn c)], w))
  /\ (forall page l w',
        app None cfg w = (Done page, l, w') ->
        exists col,
          getitem "sku" d = Some col
          /\ skus_of page = unique col
          /\ In (StTabs (unique col)) l
          /\ (forall mode train,
                In (ProphetFit mode train) l ->
                mode = seasonality_mode cfg
                /\ exists sku, In sku (unique col)
                               /\ outcome (training_frame d sku w) = Done train)
          /\ pd_concat (all_forecasts_of page) = Some (df_all_forecast_of page)).
Proof.
  intros Hread.
  assert (Hload : load None w =
            (Done (Some d),
             [ReadCsvPath "data/datos_grupasa.csv";
              StInfo "Usando dataset sintético de ejemplo."], w))
    by (rewrite load_example, Hread; reflexivity).
  assert (Happ : app None cfg w =
            after_events [ReadCsvPath "data/datos_grupasa.csv";
                          StInfo "Usando dataset sintético de ejemplo."]
                         (after_load (Some d) cfg w))
    by (unfold app; now rewrite (bind_done _ _ _ _ _ _ Hload)).
  split; [exact Hload|]. split; [exact Happ|]. split.
  - intros c Hc. rewrite Happ. unfold after_load, forecast_all.
    rewrite (bind_stopped _ _ w [StError (ErrMissingColumn c)] w); [reflexivity|].
    apply bind_stopped. now apply validate_stops.
  - intros page l w' Hdone.
    apply app_done in Hdone
      as (d' & l0 & col & fcs & l1 & df_all & buf & Hload' & Hcols & Hsku & Hrun
          & Hcat & Hx & -> & ->).
    rewrite Hload in Hload'. injection Hload' as <- <-.
    exists col. cbn [skus_of all_forecasts_of df_all_forecast_of].
    repeat split; auto.
    + simpl. tauto.
    + simpl in H.
      destruct H as [H|[H|[H|[H|H]]]]; try discriminate.
      apply in_app_or in H as [H|H];
        [|simpl in H; intuition discriminate].
      exact (proj1 (loop_run_fits _ _ _ _ _ _ _ _ _ Hrun H)).
    + simpl in H.
      destruct H as [H|[H|[H|[H|H]]]]; try discriminate.
      apply in_app_or in H as [H|H];
        [|simpl in H; intuition discriminate].
      exact (proj2 (loop_run_fits _ _ _ _ _ _ _ _ _ Hrun H)).
Qed.

End NoUpload.

(** * The properties on the small instance *)

Section DemoContract.

Lemma all_times_stamps ts : Demo.all_times (map STime ts) = Some ts.
Proof. induction ts as [|t ts IH]; simpl; [reflexivity | now rewrite IH]. Qed.

Lemma demo_predict_inv m future sample :
  Demo.predict_frame m future = Some sample ->
  exists ds,
    getitem "ds" future = Some ds
    /\ sample = fun w =>
         ({| nrows := nrows future;
             cols := [("ds", ds);
                      ("yhat_lower", repeat (SInt (- Z.of_nat w)) (nrows future));
                      ("yhat_upper", repeat (SInt (Z.of_nat w)) (nrows future));
                      ("yhat", repeat (SInt 0) (nrows future))] |}, S w).
Proof.
  unfold Demo.predict_frame. destruct (getitem "ds" future) as [ds|]; [|discriminate].
  intros [= <-]. eauto.
Qed.

(** The small instance keeps the contract. *)
Lemma demo_contract : ProphetContract Demo.libs.
Proof.
  constructor; cbn [prophet_fit prophet_predict history_dates World Model Demo.libs].
  - intros mode train m ts Hf Hds. unfold Demo.fit in Hf.
    rewrite Hds, all_times_stamps in Hf.
    destruct (2 <=? List.length ts); [now injection Hf as <- | discriminate].
  - intros m future sample w Hp Hwf.
    apply demo_predict_inv in Hp as (ds & Hds & ->). cbn [fst nrows].
    split; [|reflexivity]. unfold wf_frame. cbn [nrows cols].
    repeat constructor; cbn [snd]; try apply repeat_length.
    eapply getitem_length; eauto.
  - intros m future sample w Hp.
    apply demo_predict_inv in Hp as (ds & Hds & ->). now rewrite Hds.
  - intros m future sample w c Hp Hc.
    apply demo_predict_inv in Hp as (ds & Hds & ->).
    simpl in Hc. destruct Hc as [<-|[<-|[<-|[]]]]; reflexivity.
  - intros m future sample w w' Hp.
    apply demo_predict_inv in Hp as (ds & Hds & ->). reflexivity.
Qed.

Lemma daily_NoDup t0 n : NoDup (Demo.daily t0 n).
Proof.
  unfold Demo.daily. apply Injective_map_NoDup; [|apply seq_NoDup].
  intros x y H. unfold DAY in H. lia.
Qed.

End DemoContract.

Section DemoRuns.

(** An upload of 6 MB against the limit of 5 MB. *)
Lemma oversized_upload_witness :
  (5 * 1024 * 1024 < size (Demo.upload "ventas.csv" 6291456))%N
  /\ @app Demo.libs (Some (Demo.upload "ventas.csv" 6291456)) Demo.cfg30 0
     = (Raised (NameError "df"),
        [StError (ErrTooLarge (@file_size (Demo.upload "ventas.csv" 6291456))
                              MAX_SIZE_MB)], 0).
Proof.
  split; [reflexivity|].
  apply (@oversized_upload_halts_before_parsing Demo.libs
           (Demo.upload "ventas.csv" 6291456) Demo.cfg30 0).
  reflexivity.
Defined.

(** A file of exactly 5 * 1024 * 1024 bytes is read. *)
Lemma size_check_witness :
  size (Demo.upload "ventas.csv" 5242880) = (5 * 1024 * 1024)%N
  /\ existsb reads_upload
       (events (@load Demo.libs (Some (Demo.upload "ventas.csv" 5242880)) 0)) = true.
Proof.
  split; [reflexivity|].
  apply (proj2 (proj2 (@size_check_is_strict Demo.libs
                         (Demo.upload "ventas.csv" 5242880) 0))).
  reflexivity.
Defined.

(** A table without the column fecha: the error names fecha. *)
Lemma missing_column_witness :
  in_columns "fecha"
    {| nrows := 2;
       cols := [("sku", [SStr "A"; SStr "A"]);
                ("demanda_real", [SInt 10; SInt 12])] |} = false
  /\ @app Demo.libs (Some Demo.upload_no_fecha) Demo.cfg30 0
     = (Stopped,
        [ReadCsvUpload Demo.upload_no_fecha;
         StSuccess "Archivo cargado correctamente!";
         StError (ErrMissingColumn "fecha")], 0).
Proof.
  split; [reflexivity|].
  destruct (@missing_column_stops_render Demo.libs
              (Some Demo.upload_no_fecha) Demo.cfg30 0
              {| nrows := 2;
                 cols := [("sku", [SStr "A"; SStr "A"]);
                          ("demanda_real", [SInt 10; SInt 12])] |}
              [ReadCsvUpload Demo.upload_no_fecha;
               StSuccess "Archivo cargado correctamente!"] 0)
    as (col & Hfirst & _ & _ & Happ & _).
  - reflexivity.
  - exists "fecha". split; [simpl; tauto | reflexivity].
  - vm_compute in Hfirst. injection Hfirst as <-. exact Happ.
Defined.

(** The table of the three columns and no row: the page raises at the tabs,
    before any fit and any export. *)
Lemma empty_table_is_not_exported :
  wf_frame (Demo.sales [] 0 0)
  /\ (forall c, In c required_cols -> in_columns c (Demo.sales [] 0 0) = true)
  /\ @load Demo.libs (Some Demo.upload_empty) 0
     = (Done (Some (Demo.sales [] 0 0)),
        [ReadCsvUpload Demo.upload_empty;
         StSuccess "Archivo cargado correctamente!"], 0)
  /\ @app Demo.libs (Some Demo.upload_empty) Demo.cfg30 0
     = (Raised (StreamlitAPIException
                  "The input argument to st.tabs must contain at least one tab label."),
        [ReadCsvUpload Demo.upload_empty;
         StSuccess "Archivo cargado correctamente!";
         StSubheader "📊 Pronósticos por SKU"], 0)
  /\ existsb forecasts_or_exports
       (events (@app Demo.libs (Some Demo.upload_empty) Demo.cfg30 0)) = false.
Proof.
  split; [repeat constructor|]. split; [|repeat split].
  intros c Hc. simpl in Hc. destruct Hc as [<-|[<-|[<-|[]]]]; reflexivity.
Qed.

End DemoRuns.

Section DemoNoUpload.

(** Without an upload the small instance runs on the table of its bundled
    file. *)
Lemma no_upload_witness :
  @pd_read_csv_path Demo.libs "data/datos_grupasa.csv"
  = Some (Demo.sales ["P1"; "P2"; "P3"] 0 5)
  /\ @load Demo.libs None 0
     = (Done (Some (Demo.sales ["P1"; "P2"; "P3"] 0 5)),
        [ReadCsvPath "data/datos_grupasa.csv";
         StInfo "Usando dataset sintético de ejemplo."], 0).
Proof.
  split; [reflexivity|].
  apply (proj1 (@no_upload_runs_on_bundled_table Demo.libs
                  (Demo.sales ["P1"; "P2"; "P3"] 0 5) Demo.cfg30 0 eq_refl)).
Defined.

(** Where the bundled file is not there, the loader raises: the read is the
    only call, no notification is shown and the page ends there. *)
Lemma unreadable_example_fails :
  @pd_read_csv_path Demo.libs_without_example "data/datos_grupasa.csv" = None
  /\ @load Demo.libs_without_example None 0
     = (Raised (LibraryError "pd.read_csv"),
        [ReadCsvPath "data/datos_grupasa.csv"], 0)
  /\ @app Demo.libs_without_example None Demo.cfg30 0
     = (Raised (LibraryError "pd.read_csv"),
        [ReadCsvPath "data/datos_grupasa.csv"], 0).
Proof. repeat split. Qed.

End DemoNoUpload.

Section DemoForecasts.

(** Two tables with the same three observations of A and different other
    SKUs. *)
Lemma own_observations_witness :
  observations_of (Demo.sales ["A"; "B"] 0 3) (SStr "A")
  = observations_of (Demo.sales ["A"; "Z"; "Q"] 0 3) (SStr "A")
  /\ @forecast_sku Demo.libs (Some (Demo.sales ["A"; "B"] 0 3)) Demo.cfg30 (SStr "A") 0
     = @forecast_sku Demo.libs (Some (Demo.sales ["A"; "Z"; "Q"] 0 3)) Demo.cfg30
                     (SStr "A") 0.
Proof.
  split; [reflexivity|].
  apply (@forecast_uses_only_own_observations Demo.libs
           (Demo.sales ["A"; "B"] 0 3) (Demo.sales ["A"; "Z"; "Q"] 0 3)
           Demo.cfg30 (SStr "A") 0).
  - repeat constructor.
  - repeat constructor.
  - reflexivity.
  - reflexivity.
Defined.

(** The pass of A on [sales ["A"; "B"] 0 3] with a horizon of 7 days shows 7
    rows, the 7 days after the last date of the history. *)
Lemma displayed_table_witness :
  exists shown last,
    In (StDataframe shown)
       (events (@forecast_sku Demo.libs (Some (Demo.sales ["A"; "B"] 0 3))
                              (mkConfig 7 additive) (SStr "A") 0))
    /\ nrows shown = 7
    /\ columns shown = display_cols
    /\ getitem "ds" shown = Some (map STime (next_days last 7)).
Proof.
  destruct (@displayed_table_is_forecast_tail Demo.libs demo_contract
              (Demo.sales ["A"; "B"] 0 3) (mkConfig 7 additive) (SStr "A") 0
              _ _ _ eq_refl)
    as (selected & shown & m & last & _ & _ & Hin & Hc & Hn & _ & _ & _ & _ & _ & Hds & _).
  exists shown, last. split; [|split; [|split]].
  - apply Hin. reflexivity.
  - exact Hn.
  - exact Hc.
  - exact Hds.
Defined.

End DemoForecasts.

Section DemoPages.

Lemma demo_predict_total m future :
  @make_future_dataframe Demo.libs m 30 = Some future ->
  exists sample, @prophet_predict Demo.libs m future = Some sample.
Proof.
  intros H. apply make_future_inv in H as (last & _ & ->).
  cbn [prophet_predict Demo.libs]. unfold Demo.predict_frame.
  cbn [getitem frame_of_dates cols lookup_col]. simpl String.eqb. cbv iota.
  eauto.
Qed.

Lemma demo_pass_completes (n : nat) (sku : string) w0 :
  In sku ["A"; "B"] -> n = 3 \/ n = 400 ->
  exists fc l w1,
    @forecast_sku Demo.libs (Some (Demo.sales ["A"; "B"] 0 n)) Demo.cfg30
                  (SStr sku) w0 = (Done fc, l, w1).
Proof.
  intros Hs Hn.
  assert (Ht : exists train m,
            outcome (@training_frame Demo.libs (Demo.sales ["A"; "B"] 0 n)
                                     (SStr sku) w0) = Done train
            /\ @prophet_fit Demo.libs additive train = Some m
            /\ @history_dates Demo.libs m <> []).
  { simpl in Hs.
    destruct Hs as [<-|[<-|[]]]; destruct Hn as [->| ->];
      eexists _, _; (split; [vm_compute; reflexivity|]);
      (split; [vm_compute; reflexivity | vm_compute; discriminate]). }
  destruct Ht as (train & m & Ht & Hf & Hh).
  apply (@forecast_sku_completes Demo.libs demo_contract _ Demo.cfg30 _ train m w0
           Ht Hf Hh).
  apply demo_predict_total.
Qed.

(** The table [sales ["A"; "B"] 0 3]: two forecasts, concatenated. *)
Lemma concatenation_witness :
  exists fcs df_all l w',
    @forecast_all Demo.libs (Some (Demo.sales ["A"; "B"] 0 3)) Demo.cfg30 0
    = (Done ([SStr "A"; SStr "B"], fcs), l, w')
    /\ pd_concat fcs = Some df_all
    /\ nrows df_all = list_sum (map nrows fcs)
    /\ observations df_all
       = flat_map (fun fc => observations (reindex (columns df_all) fc)) fcs.
Proof.
  destruct (@forecasts_are_concatenated Demo.libs demo_contract
              (Demo.sales ["A"; "B"] 0 3) Demo.cfg30 0
              [SStr "A"; SStr "A"; SStr "A"; SStr "B"; SStr "B"; SStr "B"])
    as (fcs & df_all & l & w' & Hall & _ & _ & _ & _ & Hcat & Hn & Hobs & _).
  - intros c Hc. simpl in Hc. destruct Hc as [<-|[<-|[<-|[]]]]; reflexivity.
  - reflexivity.
  - discriminate.
  - intros sku w0 Hin. vm_compute in Hin.
    destruct Hin as [<-|[<-|[]]];
      apply (demo_pass_completes 3); simpl; tauto.
  - exists fcs, df_all, l, w'. repeat split; assumption.
Defined.

(** Two executions on the same upload, from the states 0 and 7 of the
    generator. *)
Lemma two_renders_witness :
  same_end same_forecasts
    (outcome (@bind Demo.libs _ _
                (@load Demo.libs (Some (Demo.upload "ventas.csv" 100)))
                (fun df => @forecast_all Demo.libs df Demo.cfg30) 0))
    (outcome (@bind Demo.libs _ _
                (@load Demo.libs (Some (Demo.upload "ventas.csv" 100)))
                (fun df => @forecast_all Demo.libs df Demo.cfg30) 7)).
Proof.
  exact (proj1 (@renders_agree_on_dates_and_estimates Demo.libs demo_contract
                  (Some (Demo.upload "ventas.csv" 100)) Demo.cfg30 0 7)).
Defined.

(** The page on [sales ["A"; "B"] 0 3] offers one download. *)
Lemma export_witness :
  exists buf,
    filter is_download
           (events (@app Demo.libs (Some (Demo.upload "ventas.csv" 100))
                         Demo.cfg30 0))
    = [StDownloadButton "Descargar pronósticos (Excel)" buf XLSX_NAME XLSX_MIME].
Proof.
  destruct (@export_is_one_spreadsheet Demo.libs demo_contract
              (Some (Demo.upload "ventas.csv" 100)) Demo.cfg30 0 _ _ _ eq_refl)
    as (_ & _ & Hd & _).
  eexists. exact Hd.
Defined.

End DemoPages.

Section DemoScenario.

(** The scenario on the small instance: [sales ["A"; "B"] 0 400], a horizon of
    30 days, the additive mode. *)
Lemma scenario_witness :
  exists page l w',
    @app Demo.libs (Some Demo.upload_400) (mkConfig 30 additive) 0
    = (Done page, l, w')
    /\ skus_of page = [SStr "A"; SStr "B"]
    /\ map nrows (all_forecasts_of page) = [430; 430]
    /\ nrows (df_all_forecast_of page) = 860
    /\ List.length (tl (sheet_cells (df_all_forecast_of page))) = 860.
Proof.
  destruct (@two_skus_of_400_days Demo.libs demo_contract
              (Some Demo.upload_400) 0
              [ReadCsvUpload Demo.upload_400;
               StSuccess "Archivo cargado correctamente!"]
              (Demo.sales ["A"; "B"] 0 400) (SStr "A") (SStr "B")
              (flat_map (fun s => repeat (SStr s) 400) ["A"; "B"])
              (map STime (Demo.daily 0 400)) (map STime (Demo.daily 0 400))
              (Demo.daily 0 400) (Demo.daily 0 400))
    as (page & l & w' & Happ & Hs & Hr & _ & Hn & _ & Hl & _).
  - reflexivity.
  - intros c Hc. simpl in Hc. destruct Hc as [<-|[<-|[<-|[]]]]; reflexivity.
  - reflexivity.
  - vm_compute. reflexivity.
  - vm_compute. reflexivity.
  - vm_compute. reflexivity.
  - apply daily_NoDup.
  - vm_compute. reflexivity.
  - vm_compute. reflexivity.
  - vm_compute. reflexivity.
  - apply daily_NoDup.
  - vm_compute. reflexivity.
  - intros sku train Hin Ht. simpl in Hin.
    destruct Hin as [<-|[<-|[]]]; vm_compute in Ht; injection Ht as <-;
      (eexists; split; [vm_compute; reflexivity | apply demo_predict_total]).
  - intros sheet _. eexists. reflexivity.
  - exists page, l, w'. repeat split; assumption.
Defined.

End DemoScenario.

(** * Further properties of the script *)

(** ** The reader follows the extension *)

Section Extension.

Context {L : Libs}.

Lemma substring_whole (s : string) : substring 0 (String.length s) s = s.
Proof. induction s as [|c s IH]; simpl; [reflexivity | now rewrite IH]. Qed.

Lemma substring_split (s : string) (i : nat) :
  i <= String.length s ->
  s = String.append (substring 0 i s) (substring i (String.length s - i) s).
Proof.
  revert i. induction s as [|c s IH]; intros i Hi.
  - destruct i; reflexivity.
  - destruct i as [|i].
    + simpl. now rewrite substring_whole.
    + simpl in *. f_equal. apply IH. lia.
Qed.

Lemma length_append (p s : string) :
  String.length (String.append p s) = String.length p + String.length s.
Proof. induction p as [|c p IH]; simpl; [reflexivity | now rewrite IH]. Qed.

Lemma substring_suffix (p s : string) :
  substring (String.length p) (String.length s) (String.append p s) = s.
Proof. induction p as [|c p IH]; simpl; [apply substring_whole | exact IH]. Qed.

(** [endswith] holds of the strings that are a stem followed by the suffix. *)
Lemma endswith_stem (s suffix : string) :
  endswith s suffix = true <-> exists stem, s = String.append stem suffix.
Proof.
  unfold endswith. rewrite andb_true_iff, Nat.leb_le, String.eqb_eq. split.
  - intros [Hle Hsub].
    exists (substring 0 (String.length s - String.length suffix) s).
    etransitivity;
      [apply (substring_split s (String.length s - String.length suffix)); lia|].
    f_equal.
    replace (String.length s - (String.length s - String.length suffix))
      with (String.length suffix) by lia.
    exact Hsub.
  - intros [stem ->]. rewrite length_append. split; [lia|].
    replace (String.length stem + String.length suffix - String.length suffix)
      with (String.length stem) by lia.
    apply substring_suffix.
Qed.

(** X1: which reader an accepted upload goes to.  An upload within the size
    limit is handed to exactly one reader, once: to [pd.read_csv] when its
    name is a stem followed by ".csv", and to [pd.read_excel] for every other
    name, whatever its extension. *)
Theorem reader_follows_extension (f : UploadedFile) (w : World) :
  too_large f = false ->
  (filter reads_upload (events (load (Some f) w)) = [ReadCsvUpload f]
   <-> exists stem, name f = String.append stem ".csv")
  /\ (filter reads_upload (events (load (Some f) w)) = [ReadExcelUpload f]
      <-> ~ exists stem, name f = String.append stem ".csv").
Proof.
  intros Hs. rewrite <- endswith_stem. rewrite load_accepted by assumption.
  destruct (endswith (name f) ".csv").
  - destruct (pd_read_csv f); simpl; (split; split; intros H;
      [reflexivity | reflexivity | discriminate | exfalso; auto]).
  - destruct (pd_read_excel f); simpl; (split; split; intros H;
      [discriminate | discriminate | discriminate | reflexivity]).
Qed.

End Extension.

(** ** How an execution ends *)

Section Endings.

Context {L : Libs}.

Lemma events_bind {A B : Type} (m : M A) (k : A -> M B) w :
  events (bind m k w) =
    match m w with
    | (Done a, l1, w1) => l1 ++ events (k a w1)
    | (_, l1, _) => l1
    end.
Proof.
  unfold bind. destruct (m w) as [[[a| |e] l1] w1]; try reflexivity.
  apply events_after_events.
Qed.

Lemma outcome_of_bind {A B : Type} (m : M A) (k : A -> M B) w :
  outcome (bind m k w) =
    match m w with
    | (Done a, _, w1) => outcome (k a w1)
    | (Stopped, _, _) => Stopped
    | (Raised e, _, _) => Raised e
    end.
Proof.
  unfold bind. destruct (m w) as [[[a| |e] l1] w1]; try reflexivity.
  apply outcome_after_events.
Qed.

(** The calls of one pass, however it ends, hold no download and no closing
    notification. *)
Lemma forecast_sku_open (d : DataFrame) (cfg : Config) (sku : Scalar) w :
  existsb is_download (events (forecast_sku (Some d) cfg sku w)) = false
  /\ existsb is_final_success (events (forecast_sku (Some d) cfg sku w)) = false.
Proof.
  rewrite forecast_sku_result.
  destruct (outcome (training_frame d sku w)); cbv zeta;
    repeat match goal with
           | |- context [match ?x with Some _ => _ | None => _ end] => destruct x
           end; split; reflexivity.
Qed.

Lemma forecast_loop_open (d : DataFrame) (cfg : Config) skus :
  forall acc w,
    existsb is_download (events (forecast_loop (Some d) cfg skus acc w)) = false
    /\ existsb is_final_success
         (events (forecast_loop (Some d) cfg skus acc w)) = false.
Proof.
  induction skus as [|sku rest IH]; intros acc w; [split; reflexivity|].
  simpl. rewrite events_bind.
  destruct (forecast_sku_open d cfg sku w) as [H1 H2].
  destruct (forecast_sku (Some d) cfg sku w) as [[[fc| |e] l1] w1];
    unfold events in H1, H2; simpl in H1, H2; try (split; assumption).
  rewrite !existsb_app, H1, H2.
  destruct (IH (acc ++ [fc]) w1) as [H3 H4]. now rewrite H3, H4.
Qed.

Lemma validate_open (required : list string) (df : option DataFrame) w :
  existsb is_download (events (validate required df w)) = false
  /\ existsb is_final_success (events (validate required df w)) = false.
Proof.
  induction required as [|c rest IH]; [split; reflexivity|].
  simpl. destruct df as [d|]; [|split; reflexivity].
  unfold read_df. rewrite !bind_ret.
  destruct (negb (in_columns c d)); [split; reflexivity | exact IH].
Qed.

Lemma forecast_all_open (df : option DataFrame) (cfg : Config) w :
  existsb is_download (events (forecast_all df cfg w)) = false
  /\ existsb is_final_success (events (forecast_all df cfg w)) = false.
Proof.
  unfold forecast_all. rewrite events_bind.
  destruct (validate_open required_cols df w) as [H1 H2].
  destruct (validate required_cols df w) as [[[[]| |e] l1] w1];
    unfold events in H1, H2; simpl in H1, H2; try (split; assumption).
  rewrite !existsb_app, H1, H2. simpl orb.
  destruct df as [d|]; [|split; reflexivity].
  unfold read_df. rewrite bind_ret. unfold item.
  destruct (getitem "sku" d) as [col|]; [|split; reflexivity].
  rewrite bind_ret, bind_emit, events_after_events.
  unfold st_tabs. destruct (unique col) as [|s rest]; [split; reflexivity|].
  rewrite bind_emit, events_after_events, events_bind.
  destruct (forecast_loop_open d cfg (s :: rest) [] w1) as [H3 H4].
  destruct (forecast_loop (Some d) cfg (s :: rest) [] w1) as [[[fcs| |e] l2] w2];
    unfold events in H3, H4 |- *; simpl in H3, H4 |- *;
    rewrite ?existsb_app, H3, H4; split; reflexivity.
Qed.

Lemma load_open (up : option UploadedFile) w :
  existsb is_download (events (load up w)) = false
  /\ existsb is_final_success (events (load up w)) = false.
Proof.
  destruct up as [f|];
    [|rewrite load_example; destruct (pd_read_csv_path _); split; reflexivity].
  destruct (too_large f) eqn:Hs.
  - rewrite load_rejected by assumption. split; reflexivity.
  - rewrite load_accepted by assumption.
    destruct (endswith (name f) ".csv");
      [destruct (pd_read_csv f) | destruct (pd_read_excel f)]; split; reflexivity.
Qed.

(** X2: the download and the closing notification mark completion.  In every
    execution, a download button is shown exactly when the execution reaches
    its last line, and so is the closing notification: an execution that
    stops or raises, at whatever point, offers no download and does not
    announce success. *)
Theorem download_offered_iff_completed
    (up : option UploadedFile) (cfg : Config) (w : World) :
  (existsb is_download (events (app up cfg w)) = true
   <-> exists page, outcome (app up cfg w) = Done page)
  /\ (existsb is_final_success (events (app up cfg w)) = true
      <-> exists page, outcome (app up cfg w) = Done page).
Proof.
  unfold app, after_load.
  rewrite !events_bind, !outcome_of_bind.
  destruct (load_open up w) as [H1 H2].
  destruct (load up w) as [[[df| |e] l0] w0]; unfold events in H1, H2;
    simpl in H1, H2;
    try (rewrite H1, H2; split; split;
         [discriminate | intros [p Hp]; discriminate
         | discriminate | intros [p Hp]; discriminate]).
  rewrite !events_bind, !outcome_of_bind, !existsb_app, H1, H2. simpl orb.
  destruct (forecast_all_open df cfg w0) as [H3 H4].
  destruct (forecast_all df cfg w0) as [[[r| |e] l1] w1]; unfold events in H3, H4;
    simpl in H3, H4;
    try (rewrite H3, H4; split; split;
         [discriminate | intros [p Hp]; discriminate
         | discriminate | intros [p Hp]; discriminate]).
  rewrite !existsb_app, H3, H4. simpl orb.
  rewrite export_result.
  destruct (pd_concat (snd r)) as [df_all|];
    [destruct (xlsx_write (sheet_cells df_all)) as [buf|]|];
    unfold events, outcome; simpl;
    split; split; intros H; try discriminate; eauto;
    destruct H as [p Hp]; discriminate.
Qed.

End Endings.

(** ** Tables without rows, and passes that fail *)

Section Failures.

Context {L : Libs}.

(** X3: a table without rows.  A well-formed table that has the three
    required columns and no row passes the validation and then fails at the
    tabs: [st.tabs] is given no label and raises, after the subheader and
    before any fit, so nothing is shown for any SKU and nothing is exported. *)
Theorem table_without_rows_raises_at_tabs
    (d : DataFrame) (cfg : Config) (w : World) :
  wf_frame d ->
  nrows d = 0 ->
  (forall c, In c required_cols -> in_columns c d = true) ->
  after_load (Some d) cfg w =
    (Raised (StreamlitAPIException
               "The input argument to st.tabs must contain at least one tab label."),
     [StSubheader "📊 Pronósticos por SKU"], w).
Proof.
  intros Hwf Hn Hcols.
  destruct (proj1 (in_columns_getitem "sku" d) (Hcols "sku" (or_introl eq_refl)))
    as [col Hsku].
  assert (Hcol : col = []).
  { apply length_zero_nil. rewrite <- Hn. eapply getitem_length; eauto. }
  subst col. unfold after_load.
  apply bind_raised. now rewrite (forecast_all_result d cfg [] w Hcols Hsku).
Qed.

(** X4: the loop stops at the first pass that fails.  When the passes of the
    SKUs [skus1] complete and the pass of the next SKU raises, the loop ends
    with that exception: the calls made are those of the completed passes
    followed by those of the failed one, and no call is made for the SKUs
    after it. *)
Theorem loop_stops_at_first_failure
    (df : option DataFrame) (cfg : Config) (skus1 : list Scalar) (w : World)
    (fcs : list DataFrame) (l1 : list Event) (w1 : World)
    (sku : Scalar) (e : Exn) (l2 : list Event) (w2 : World) :
  loop_run df cfg skus1 w fcs l1 w1 ->
  forecast_sku df cfg sku w1 = (Raised e, l2, w2) ->
  forall skus2 acc,
    forecast_loop df cfg (skus1 ++ sku :: skus2) acc w = (Raised e, l1 ++ l2, w2).
Proof.
  intros Hrun Hfail skus2.
  induction Hrun as [w|s rest w fc la wa fcs lb wb Hs Hrest IH]; intros acc.
  - simpl. now rewrite (bind_raised _ _ _ _ _ _ Hfail).
  - simpl. rewrite (bind_done _ _ _ _ _ _ Hs), (IH Hfail). simpl.
    now rewrite app_assoc.
Qed.

Lemma loop_run_headers (d : DataFrame) (cfg : Config) skus w fcs l w' :
  loop_run (Some d) cfg skus w fcs l w' ->
  headers_of l = skus
  /\ List.length (filter is_fit l) = List.length skus
  /\ List.length fcs = List.length skus.
Proof.
  induction 1 as [w|sku rest w fc l1 w1 fcs l2 w2 H1 H2 (IH1 & IH2 & IH3)].
  - repeat split.
  - apply forecast_sku_done in H1
      as (train & m & future & sample & shown & _ & _ & _ & _ & _ & _ & _ & ->).
    unfold headers_of in *. rewrite flat_map_app, filter_app, length_app.
    rewrite IH1, IH2. simpl. now rewrite IH3.
Qed.

(** X5: one pass and one fit per SKU, in the order of first appearance.  In
    an execution that reaches the last line, the tabs are the distinct values
    of the column sku in order of first appearance, the headers of the passes
    are these same SKUs in the same order, [Prophet.fit] has been called once
    per SKU, and [all_forecasts] holds one forecast per SKU. *)
Theorem one_pass_per_sku
    (up : option UploadedFile) (cfg : Config) (w : World)
    (page : Page) (l : list Event) (w' : World) :
  app up cfg w = (Done page, l, w') ->
  exists d l0 col,
    load up w = (Done (Some d), l0, w)
    /\ getitem "sku" d = Some col
    /\ skus_of page = unique col
    /\ In (StTabs (unique col)) l
    /\ headers_of l = unique col
    /\ List.length (filter is_fit l) = List.length (unique col)
    /\ List.length (all_forecasts_of page) = List.length (unique col).
Proof.
  intros Happ.
  apply app_done in Happ
    as (d & l0 & col & fcs & l1 & df_all & buf & Hload & Hcols & Hsku & Hrun
        & Hcat & Hx & -> & ->).
  destruct (loop_run_headers _ _ _ _ _ _ _ Hrun) as (Hh & Hf & Hn).
  exists d, l0, col. repeat split; auto.
  - rewrite !in_app_iff. right. left. simpl. tauto.
  - unfold headers_of in *. rewrite !flat_map_app, Hh.
    assert (H0 : flat_map (fun e => match e with StMarkdown s => [s] | _ => [] end) l0
                 = []).
    { pose proof (load_makes_no_forecast up w) as Hq. rewrite Hload in Hq.
      unfold events in Hq. simpl in Hq. clear - Hq.
      induction l0 as [|e l0 IH]; [reflexivity|].
      simpl in Hq. apply orb_false_iff in Hq as [He Hq].
      simpl. rewrite (IH Hq). now destruct e. }
    rewrite H0. simpl. now rewrite app_nil_r.
  - rewrite !filter_app, !length_app, Hf.
    assert (H0 : filter is_fit l0 = []).
    { pose proof (load_makes_no_forecast up w) as Hq. rewrite Hload in Hq.
      unfold events in Hq. simpl in Hq. clear - Hq.
      induction l0 as [|e l0 IH]; [reflexivity|].
      simpl in Hq. apply orb_false_iff in Hq as [He Hq].
      simpl. rewrite (IH Hq). now destruct e. }
    rewrite H0. simpl. lia.
Qed.

End Failures.

(** ** What a fit is given *)

Section FitInput.

Context {L : Libs}.

(** The frame of a recorded call of [fit] is the training frame of the pass. *)
Lemma fit_event_train (d : DataFrame) (cfg : Config) (sku : Scalar) w mode train :
  In (ProphetFit mode train) (events (forecast_sku (Some d) cfg sku w)) ->
  outcome (training_frame d sku w) = Done train.
Proof.
  intros Hin. rewrite forecast_sku_result in Hin.
  destruct (outcome (training_frame d sku w)) as [t| |e];
    [|simpl in Hin; intuition discriminate ..].
  cbv zeta in Hin.
  repeat match type of Hin with
         | context [match ?x with Some _ => _ | None => _ end] => destruct x
         end;
    unfold events in Hin; simpl in Hin;
    repeat (destruct Hin as [Hin|Hin]; [try discriminate|]);
    try contradiction; injection Hin as _ ->; reflexivity.
Qed.

Lemma getitem_filter_rows c mask d :
  getitem c (filter_rows mask d) = option_map (select_mask mask) (getitem c d).
Proof. apply (lookup_map_series (select_mask mask)). Qed.

Lemma training_frame_three_columns (d1 d2 : DataFrame) (sku : Scalar) w :
  nrows d1 = nrows d2 ->
  (forall c, In c required_cols -> getitem c d1 = getitem c d2) ->
  training_frame d1 sku w = training_frame d2 sku w.
Proof.
  intros Hn Hc. rewrite !training_frame_result.
  rewrite <- (Hc "sku") by (simpl; tauto).
  destruct (getitem "sku" d1) as [col|]; [|reflexivity].
  rewrite !prepare_result, !getitem_filter_rows.
  rewrite <- (Hc "fecha") by (simpl; tauto).
  destruct (getitem "fecha" d1) as [fe|]; [|reflexivity]. cbn [option_map].
  destruct (pd_to_datetime _) as [ds|]; [|reflexivity].
  rewrite !getitem_setitem_other by reflexivity.
  rewrite !getitem_filter_rows. rewrite <- (Hc "demanda_real") by (simpl; tauto).
  destruct (getitem "demanda_real" d1) as [y|]; [|reflexivity]. cbn [option_map].
  unfold filter_rows. cbn [nrows]. now rewrite Hn.
Qed.

(** X6: only the three required columns reach the model.  Two tables with the
    same number of rows and the same columns sku, fecha and demanda_real give
    the same pass for every SKU, whatever other columns they hold and in
    whatever order; and the frame handed to [fit] has the two columns ds and
    y, nothing else. *)
Theorem fit_reads_three_columns
    (d1 d2 : DataFrame) (cfg : Config) (sku : Scalar) (w : World) :
  nrows d1 = nrows d2 ->
  (forall c, In c required_cols -> getitem c d1 = getitem c d2) ->
  forecast_sku (Some d1) cfg sku w = forecast_sku (Some d2) cfg sku w
  /\ forall mode train,
       In (ProphetFit mode train) (events (forecast_sku (Some d1) cfg sku w)) ->
       columns train = ["ds"; "y"].
Proof.
  intros Hn Hc. split.
  - rewrite !forecast_sku_result.
    now rewrite (training_frame_three_columns d1 d2 sku w Hn Hc).
  - intros mode train Hin. apply fit_event_train in Hin.
    apply training_frame_done in Hin as (col & fecha & ds & y & _ & _ & _ & ->).
    reflexivity.
Qed.

Lemma scalar_eq_nan_r v : scalar_eq v SNaN = false.
Proof. now destruct v. Qed.

Lemma filter_none {A : Type} (p : A -> bool) (l : list A) :
  (forall x, p x = false) -> filter p l = [].
Proof.
  intros H. induction l as [|x l IH]; simpl; [reflexivity|]. now rewrite H.
Qed.

(** X7: a missing SKU.  When a cell of the column sku is missing, the missing
    value is one of the SKUs the loop runs over, but it is [==] to no cell:
    no row is an observation of it, and the frame handed to [fit] in its pass
    has no row. *)
Theorem missing_sku_gets_empty_pass
    (d : DataFrame) (col : Series) (cfg : Config) (w : World) :
  wf_frame d ->
  getitem "sku" d = Some col ->
  In SNaN col ->
  In SNaN (unique col)
  /\ observations_of d SNaN = []
  /\ forall mode train,
       In (ProphetFit mode train) (events (forecast_sku (Some d) cfg SNaN w)) ->
       nrows train = 0.
Proof.
  intros Hwf Hsku Hin.
  assert (Hobs : observations_of d SNaN = []).
  { unfold observations_of. apply filter_none. intros row. apply scalar_eq_nan_r. }
  split; [|split].
  - destruct (unique_spec col) as (_ & Hcov & _).
    pose proof (Hcov SNaN Hin) as Hex.
    apply existsb_exists in Hex as (u & Hu & Hk).
    destruct u; try discriminate. exact Hu.
  - exact Hobs.
  - intros mode train Hfit. apply fit_event_train in Hfit.
    apply training_frame_done in Hfit as (c0 & fecha & ds & y & Hc0 & _ & _ & ->).
    rewrite Hsku in Hc0. injection Hc0 as <-.
    cbn [nrows]. rewrite <- observations_length.
    rewrite (observations_filter_rows "sku" d col (fun v => scalar_eq v SNaN) Hwf Hsku).
    fold (observations_of d SNaN). now rewrite Hobs.
Qed.

End FitInput.

(** ** Every observation belongs to one SKU *)

Section Partition.

Lemma Zeqb_Qeq_bool a b : Z.eqb a b = Qeq_bool (inject_Z a) (inject_Z b).
Proof.
  destruct (Z.eqb a b) eqn:E.
  - apply Z.eqb_eq in E. subst. symmetry. apply Qeq_bool_refl.
  - symmetry. apply not_true_iff_false. intros H.
    apply Qeq_bool_iff in H. unfold Qeq in H. simpl in H.
    apply Z.eqb_neq in E. lia.
Qed.

(** Two values [==] to a third are [==] to each other. *)
Lemma scalar_eq_euclid v x u :
  scalar_eq v x = true -> scalar_eq v u = true -> scalar_eq u x = true.
Proof.
  destruct v, x, u; simpl; try discriminate;
    first [ rewrite !String.eqb_eq; congruence
          | rewrite ?Zeqb_Qeq_bool; intros H1 H2;
            apply Qeq_bool_iff in H1; apply Qeq_bool_iff in H2;
            apply Qeq_bool_iff; rewrite <- H2; exact H1 ].
Qed.

Lemma same_key_of_eq a b : scalar_eq a b = true -> same_key a b = true.
Proof. destruct a, b; simpl; auto. Qed.

Lemma eq_of_same_key a b : a <> SNaN -> same_key a b = true -> scalar_eq a b = true.
Proof. destruct a, b; simpl; auto; congruence. Qed.

Lemma filter_nil_in {A : Type} (p : A -> bool) (l : list A) :
  (forall x, In x l -> p x = false) -> filter p l = [].
Proof.
  induction l as [|x l IH]; intros H; simpl; [reflexivity|].
  rewrite (H x) by (simpl; auto). apply IH. intros y Hy. apply H. simpl. auto.
Qed.

Lemma one_match (v : Scalar) (l : list Scalar) :
  keys_distinct l ->
  (exists u, In u l /\ scalar_eq v u = true) ->
  List.length (filter (scalar_eq v) l) = 1.
Proof.
  induction l as [|x rest IH]; intros Hd [u [Hu Hv]]; [contradiction|].
  destruct Hd as [Hx Hrest]. simpl.
  destruct (scalar_eq v x) eqn:E.
  - simpl. f_equal. rewrite filter_nil_in; [reflexivity|].
    intros y Hy. destruct (scalar_eq v y) eqn:Ey; [|reflexivity].
    rewrite Forall_forall in Hx. specialize (Hx y Hy).
    rewrite (same_key_of_eq y x (scalar_eq_euclid v x y E Ey)) in Hx.
    discriminate.
  - apply IH; [assumption|]. destruct Hu as [->|Hu]; [congruence | eauto].
Qed.

(** X8: every observation belongs to one SKU.  In a well-formed table, a row
    whose sku cell is not missing is selected by the test [df['sku'] == sku]
    for exactly one of the SKUs the loop runs over: it is an observation of
    one SKU, so it reaches one fit and no other. *)
Theorem each_row_matches_one_sku
    (d : DataFrame) (col : Series) (row : list Scalar) :
  wf_frame d ->
  getitem "sku" d = Some col ->
  In row (observations d) ->
  value_at "sku" d row <> SNaN ->
  List.length (filter (scalar_eq (value_at "sku" d row)) (unique col)) = 1
  /\ exists sku, In sku (unique col) /\ In row (observations_of d sku).
Proof.
  intros Hwf Hsku Hrow Hv.
  assert (Hin : In (value_at "sku" d row) col).
  { rewrite (getitem_observations "sku" d col Hwf Hsku). now apply in_map. }
  destruct (unique_spec col) as (Hd & Hcov & _).
  pose proof (Hcov _ Hin) as Hex.
  apply existsb_exists in Hex as (u & Hu & Hk).
  apply (eq_of_same_key _ _ Hv) in Hk.
  split.
  - apply one_match; eauto.
  - exists u. split; [assumption|].
    unfold observations_of. apply filter_In. auto.
Qed.

End Partition.

(** ** The exceptions of the page *)

Section Exceptions.

Context {L : Libs} {PC : ProphetContract L}.






End Exceptions.

(** ** When the page stops *)

Section Stops.

Context {L : Libs}.

Lemma training_frame_never_stops (d : DataFrame) (sku : Scalar) w :
  outcome (training_frame d sku w) <> Stopped.
Proof.
  rewrite training_frame_result.
  destruct (getitem "sku" d) as [col|]; [|discriminate].
  rewrite prepare_result.
  repeat match goal with
         | |- context [match ?x with Some _ => _ | None => _ end] => destruct x
         end; discriminate.
Qed.

Lemma forecast_sku_never_stops (d : DataFrame) (cfg : Config) (sku : Scalar) w :
  outcome (forecast_sku (Some d) cfg sku w) <> Stopped.
Proof.
  rewrite forecast_sku_result.
  pose proof (training_frame_never_stops d sku w) as Ht.
  destruct (outcome (training_frame d sku w)); [|contradiction | discriminate].
  cbv zeta.
  repeat match goal with
         | |- context [match ?x with Some _ => _ | None => _ end] => destruct x
         end; discriminate.
Qed.

Lemma forecast_loop_never_stops (d : DataFrame) (cfg : Config) skus :
  forall acc w, outcome (forecast_loop (Some d) cfg skus acc w) <> Stopped.
Proof.
  induction skus as [|sku rest IH]; intros acc w; [discriminate|].
  cbn [forecast_loop]. rewrite outcome_of_bind.
  pose proof (forecast_sku_never_stops d cfg sku w) as Hs.
  destruct (forecast_sku (Some d) cfg sku w) as [[[fc| |e] l1] w1];
    unfold outcome in Hs; cbn [fst] in Hs; [apply IH | contradiction | discriminate].
Qed.

(** X10: [st.stop()] is reached for a missing column and for nothing else.
    An execution ends by [st.stop()] exactly when a table was loaded and it
    lacks one of the three required columns; a table that has them, with
    whatever further columns, never stops the page: it completes or raises. *)
Theorem page_stops_only_for_missing_column
    (up : option UploadedFile) (cfg : Config) (w : World) :
  outcome (app up cfg w) = Stopped
  <-> exists d l0,
        load up w = (Done (Some d), l0, w)
        /\ exists c, In c required_cols /\ in_columns c d = false.
Proof.
  split.
  - intros H. unfold app in H. rewrite outcome_of_bind in H.
    assert (Hd : exists d l0,
              load up w = (Done (Some d), l0, w)
              /\ outcome (after_load (Some d) cfg w) = Stopped).
    { destruct up as [f|].
      - destruct (too_large f) eqn:Hs.
        + rewrite load_rejected in H by assumption.
          rewrite after_load_unbound in H. discriminate.
        + rewrite load_accepted in H |- * by assumption.
          destruct (endswith (name f) ".csv");
            [destruct (pd_read_csv f) | destruct (pd_read_excel f)];
            try discriminate; eauto.
      - rewrite load_example in H |- *.
        destruct (pd_read_csv_path _); [eauto | discriminate]. }
    clear H. destruct Hd as (d & l0 & Hload & H).
    exists d, l0. split; [assumption|].
    destruct (first_missing d) as [c|] eqn:Ef.
    { apply find_some in Ef as [Hin Hc]. apply negb_true_iff in Hc. eauto. }
    exfalso.
    assert (Hcols : forall c, In c required_cols -> in_columns c d = true).
    { intros c Hc. pose proof (find_none _ _ Ef c Hc) as Hn. simpl in Hn.
      now apply negb_false_iff in Hn. }
    destruct (proj1 (in_columns_getitem "sku" d) (Hcols "sku" (or_introl eq_refl)))
      as [col Hsku].
    unfold after_load in H. rewrite outcome_of_bind in H.
    rewrite (forecast_all_result d cfg col _ Hcols Hsku) in H.
    destruct (unique col) as [|s rest]; [discriminate|].
    pose proof (forecast_loop_never_stops d cfg (s :: rest) [] w) as Hl.
    unfold bind in H.
    destruct (forecast_loop (Some d) cfg (s :: rest) [] w) as [[[fcs| |e'] l1] w1];
      unfold outcome in Hl; cbn [fst] in Hl.
    + unfold ret, after_events in H. cbn [fst snd] in H.
      rewrite export_result in H.
      destruct (pd_concat fcs) as [df_all|]; [|discriminate].
      destruct (xlsx_write _); discriminate.
    + contradiction.
    + discriminate.
  - intros (d & l0 & Hload & c & Hin & Hc).
    destruct (first_missing d) as [c0|] eqn:Ef.
    + unfold app. rewrite outcome_of_bind, Hload.
      unfold after_load, forecast_all.
      rewrite outcome_of_bind.
      rewrite (bind_stopped _ _ _ _ _ (validate_stops d required_cols c0 _ Ef)).
      reflexivity.
    + pose proof (find_none _ _ Ef c Hin) as Hn. simpl in Hn.
      rewrite Hc in Hn. discriminate.
Qed.

End Stops.

(** ** The further properties on the small instance *)

Section DemoFurther.

(** A spreadsheet upload of 1 kB goes to the Excel reader. *)
Lemma reader_witness :
  too_large (Demo.upload "ventas.xlsx" 1024) = false
  /\ filter reads_upload
       (events (@load Demo.libs (Some (Demo.upload "ventas.xlsx" 1024)) 0))
     = [ReadExcelUpload (Demo.upload "ventas.xlsx" 1024)].
Proof.
  split; [reflexivity|].
  apply (proj2 (@reader_follows_extension Demo.libs
                  (Demo.upload "ventas.xlsx" 1024) 0 eq_refl)).
  intros [stem Hstem]. apply (f_equal (fun s => endswith s ".csv")) in Hstem.
  rewrite (proj2 (endswith_stem (String.append stem ".csv") ".csv")) in Hstem
    by eauto.
  discriminate.
Defined.

(** The table of the three columns and no row. *)
Lemma no_rows_witness :
  nrows (Demo.sales [] 0 0) = 0
  /\ @after_load Demo.libs (Some (Demo.sales [] 0 0)) Demo.cfg30 0
     = (Raised (StreamlitAPIException
                  "The input argument to st.tabs must contain at least one tab label."),
        [StSubheader "📊 Pronósticos por SKU"], 0).
Proof.
  split; [reflexivity|].
  apply (@table_without_rows_raises_at_tabs Demo.libs (Demo.sales [] 0 0)
           Demo.cfg30 0).
  - repeat constructor.
  - reflexivity.
  - intros c Hc. simpl in Hc. destruct Hc as [<-|[<-|[<-|[]]]]; reflexivity.
Defined.

(** On [uneven_sales] the pass of A completes and the pass of B, which has one
    observation, fails at the fit: the loop ends there and C gets no pass. *)
Lemma first_failure_witness :
  @forecast_loop Demo.libs (Some uneven_sales) Demo.cfg30
                 ([SStr "A"] ++ SStr "B" :: [SStr "C"]) [] 0
  = (Raised (LibraryError "Prophet.fit"),
     (events (@forecast_sku Demo.libs (Some uneven_sales) Demo.cfg30 (SStr "A") 0)
      ++ [])
     ++ events (@forecast_sku Demo.libs (Some uneven_sales) Demo.cfg30 (SStr "B") 1),
     1).
Proof.
  eapply (@loop_stops_at_first_failure Demo.libs).
  - eapply loop_pass; [vm_compute; reflexivity | apply loop_end].
  - vm_compute. reflexivity.
Defined.

(** The page on [sales ["A"; "B"] 0 3]: the headers are A then B, one fit
    each. *)
Lemma one_pass_witness :
  exists col,
    headers_of (events (@app Demo.libs (Some (Demo.upload "ventas.csv" 100))
                             Demo.cfg30 0)) = unique col
    /\ List.length
         (filter is_fit (events (@app Demo.libs (Some (Demo.upload "ventas.csv" 100))
                                       Demo.cfg30 0)))
       = List.length (unique col).
Proof.
  destruct (@one_pass_per_sku Demo.libs (Some (Demo.upload "ventas.csv" 100))
              Demo.cfg30 0 _ _ _ eq_refl)
    as (d & l0 & col & _ & _ & _ & _ & Hh & Hf & _).
  exists col. split; assumption.
Defined.

(** A price column and another column order change nothing for the pass of
    A. *)
Lemma three_columns_witness :
  @forecast_sku Demo.libs (Some (Demo.sales ["A"; "B"] 0 3)) Demo.cfg30 (SStr "A") 0
  = @forecast_sku Demo.libs (Some sales_with_price) Demo.cfg30 (SStr "A") 0.
Proof.
  apply (@fit_reads_three_columns Demo.libs (Demo.sales ["A"; "B"] 0 3)
           sales_with_price Demo.cfg30 (SStr "A") 0).
  - reflexivity.
  - intros c Hc. simpl in Hc. destruct Hc as [<-|[<-|[<-|[]]]]; reflexivity.
Defined.

(** The row without SKU of [sales_with_gap]. *)
Lemma missing_sku_witness :
  In SNaN (unique [SStr "A"; SStr "A"; SNaN; SStr "B"; SStr "B"])
  /\ observations_of sales_with_gap SNaN = [].
Proof.
  destruct (@missing_sku_gets_empty_pass Demo.libs sales_with_gap
              [SStr "A"; SStr "A"; SNaN; SStr "B"; SStr "B"] Demo.cfg30 0)
    as (H1 & H2 & _).
  - repeat constructor.
  - reflexivity.
  - simpl. tauto.
  - split; assumption.
Defined.

(** The first row of [sales ["A"; "B"] 0 3] is an observation of A alone. *)
Lemma one_sku_witness :
  List.length
    (filter (scalar_eq (value_at "sku" (Demo.sales ["A"; "B"] 0 3)
                                 [SStr "A"; STime 0; SInt 10]))
            (unique [SStr "A"; SStr "A"; SStr "A"; SStr "B"; SStr "B"; SStr "B"]))
  = 1.
Proof.
  apply (@each_row_matches_one_sku (Demo.sales ["A"; "B"] 0 3)
           [SStr "A"; SStr "A"; SStr "A"; SStr "B"; SStr "B"; SStr "B"]
           [SStr "A"; STime 0; SInt 10]).
  - repeat constructor.
  - reflexivity.
  - simpl. tauto.
  - discriminate.
Defined.


End DemoFurther.
